(** * keep-mcp: the REST surface and the health routes, embedded in Rocq

    Source files embedded here:
    - [src/server/rest_api.py]        (module [RestApi])
    - [src/server/standalone_http.py] (module [StandaloneHttp])
    - [src/server/http_server.py]     (module [HttpServer])

    The handlers call into [server.keep_api] ([get_client], [serialize_note],
    [can_modify_note]) and into the notes-service session object ([keep.find],
    [keep.get], [keep.createNote], ...).  Neither is part of the embedded
    sources; both are modelled from the specification (modules [Keep] and
    [KeepApi]) and every such definition says so in its comment.

    Python objects are mutable and shared: a note handed out by the session
    is the very object that sits in the session cache.  The cache is
    therefore a heap of note objects, a handler holds a reference (the
    position of the object in the cache), and attribute assignments go
    through the heap. *)

From stdpp Require Import base option list strings gmap.
From Stdlib Require Import DecimalString ZArith.

Open Scope string_scope.
Open Scope list_scope.

(** ** Data model *)

Record Label := mkLabel {
  label_id : string;
  label_name : string;
}.

Record Note := mkNote {
  note_id : string;
  title : option string;
  text : option string;
  pinned : bool;
  color : option string;
  archived : bool;
  trashed : bool;
  deleted : bool;
  labels : list Label;
}.

(** JSON values: what a handler returns (Python dicts keep insertion
    order, hence association lists). *)
#[warnings="-register-all"]
Inductive json :=
| JNull
| JBool (b : bool)
| JNum (n : nat)
| JStr (s : string)
| JArr (items : list json)
| JObj (fields : list (string * json)).

Definition nullable (o : option string) : json :=
  match o with
  | Some s => JStr s
  | None => JNull
  end.

(** A reference to a note object: its position in the session cache. *)
Abbreviation ref := nat (only parsing).

(** Calls that leave the handler, in the order they are made. *)
Inductive Call :=
| call_get_client
| call_find (query : string)
| call_get (id : string)
| call_createNote
| call_findLabel (name : string)
| call_createLabel (name : string)
| call_labels_add (r : ref)
| call_delete (r : ref)
| call_sync
| call_can_modify_note (r : ref)
| call_serialize_note (r : ref).

(** The process and the account it talks to. *)
Record World := mkWorld {
  UNSAFE_MODE : bool;                       (* operator override *)
  clock : string;                           (* datetime.utcnow().isoformat() *)
  auth_error : option string;               (* get_client() raises this *)
  sync_error : option string;               (* keep.sync() raises this *)
  query_matches : string -> Note -> bool;   (* the session's text search *)
  nodes : list Note;                        (* session cache, session order *)
  account_labels : list Label;              (* labels of the account *)
  entropy : nat;                            (* source of fresh identifiers *)
  server_nodes : list Note;                 (* remote account, last sync *)
  server_labels : list Label;
  calls : list Call;                        (* oldest first *)
}.

Definition set_nodes (ns : list Note) (w : World) : World :=
  mkWorld (UNSAFE_MODE w) (clock w) (auth_error w) (sync_error w)
    (query_matches w) ns (account_labels w) (entropy w)
    (server_nodes w) (server_labels w) (calls w).

Definition set_account_labels (ls : list Label) (w : World) : World :=
  mkWorld (UNSAFE_MODE w) (clock w) (auth_error w) (sync_error w)
    (query_matches w) (nodes w) ls (entropy w)
    (server_nodes w) (server_labels w) (calls w).

Definition set_entropy (k : nat) (w : World) : World :=
  mkWorld (UNSAFE_MODE w) (clock w) (auth_error w) (sync_error w)
    (query_matches w) (nodes w) (account_labels w) k
    (server_nodes w) (server_labels w) (calls w).

(** The remote account takes over the local notes and labels. *)
Definition push_to_server (w : World) : World :=
  mkWorld (UNSAFE_MODE w) (clock w) (auth_error w) (sync_error w)
    (query_matches w) (nodes w) (account_labels w) (entropy w)
    (nodes w) (account_labels w) (calls w).

(** The world after the calls [cs] were made and nothing else changed. *)
Definition called (cs : list Call) (w : World) : World :=
  mkWorld (UNSAFE_MODE w) (clock w) (auth_error w) (sync_error w)
    (query_matches w) (nodes w) (account_labels w) (entropy w)
    (server_nodes w) (server_labels w) (calls w ++ cs).

(** ** Exceptions and the handler monad *)

(** Python exceptions a handler can see: [HTTPException] (a subclass of
    [Exception]) and every other [Exception], carried as its [str(e)]. *)
Inductive exn :=
| HTTPException (status_code : nat) (detail : string)
| Exception (message : string).

Definition string_of_nat (n : nat) : string :=
  NilZero.string_of_uint (Nat.to_uint n).

(** [str(e)]; Starlette prints an HTTPException as "status: detail". *)
Definition str (e : exn) : string :=
  match e with
  | HTTPException s d => string_of_nat s +:+ ": " +:+ d
  | Exception m => m
  end.

Inductive outcome (A : Type) :=
| Return (a : A)
| Raise (e : exn).
Arguments Return {A} a.
Arguments Raise {A} e.

(** A computation runs in a world and leaves a world behind, also when it
    raises: Python undoes nothing on an exception. *)
Definition M (A : Type) : Type := World -> outcome A * World.

Definition ret {A} (a : A) : M A := fun w => (Return a, w).

Definition raise {A} (e : exn) : M A := fun w => (Raise e, w).

Definition bind {A B} (c : M A) (k : A -> M B) : M B :=
  fun w =>
    match c w with
    | (Return a, w') => k a w'
    | (Raise e, w') => (Raise e, w')
    end.

(** [try: c  except ... as e: h e] *)
Definition try_except {A} (c : M A) (h : exn -> M A) : M A :=
  fun w =>
    match c w with
    | (Return a, w') => (Return a, w')
    | (Raise e, w') => h e w'
    end.

Declare Scope py_scope.
Delimit Scope py_scope with py.
Notation "x <- c ;; k" := (bind c (fun x => k))
  (at level 20, c at level 99, k at level 200, only parsing) : py_scope.
Notation "c ;; k" := (bind c (fun _ => k))
  (at level 100, k at level 200, only parsing, right associativity) : py_scope.
Open Scope py_scope.

Definition record (c : Call) : M unit :=
  fun w => (Return tt, called [c] w).

Definition read {A} (f : World -> A) : M A := fun w => (Return (f w), w).

Definition modify (f : World -> World) : M unit := fun w => (Return tt, f w).

Fixpoint mapM {A B} (f : A -> M B) (l : list A) : M (list B) :=
  match l with
  | [] => ret []
  | a :: l' => b <- f a ;; bs <- mapM f l' ;; ret (b :: bs)
  end.

(** Reading the object behind a reference.  References come from the
    session and always point into the cache. *)
Definition deref (r : ref) : M Note :=
  fun w =>
    match nodes w !! r with
    | Some n => (Return n, w)
    | None => (Raise (Exception "stale reference"), w)
    end.

(** [obj.attr = v] on the note behind [r]. *)
Definition assign (r : ref) (f : Note -> Note) : M unit :=
  fun w =>
    match nodes w !! r with
    | Some n => (Return tt, set_nodes (<[r := f n]> (nodes w)) w)
    | None => (Raise (Exception "stale reference"), w)
    end.

Definition with_title (v : option string) (n : Note) : Note :=
  mkNote (note_id n) v (text n) (pinned n) (color n) (archived n)
    (trashed n) (deleted n) (labels n).

Definition with_text (v : option string) (n : Note) : Note :=
  mkNote (note_id n) (title n) v (pinned n) (color n) (archived n)
    (trashed n) (deleted n) (labels n).

Definition with_deleted (v : bool) (n : Note) : Note :=
  mkNote (note_id n) (title n) (text n) (pinned n) (color n) (archived n)
    (trashed n) v (labels n).

Definition with_labels (f : list Label -> list Label) (n : Note) : Note :=
  mkNote (note_id n) (title n) (text n) (pinned n) (color n) (archived n)
    (trashed n) (deleted n) (f (labels n)).

(** ** The notes-service session (external collaborator) *)

Module Keep.

(** Fresh identifiers, drawn from the world's entropy. *)
Definition fresh_id : M string :=
  k <- read entropy ;;
  modify (set_entropy (S k)) ;;
  ret ("gen." +:+ string_of_nat k).

(** References of the notes of [ns] that satisfy [P], in cache order;
    [i] is the position of the head of [ns]. *)
Fixpoint select_from (i : ref) (P : Note -> bool) (ns : list Note) : list ref :=
  match ns with
  | [] => []
  | n :: ns' =>
      if P n then i :: select_from (S i) P ns' else select_from (S i) P ns'
  end.

(** A filter argument of [find]: [None] accepts both values. *)
Definition accepts (want : option bool) (b : bool) : bool :=
  match want with
  | None => true
  | Some v => Bool.eqb b v
  end.

(** Modelled from the spec: [keep.find(query=, archived=, trashed=)] of the
    session object, "the session's search capability, restricted to notes
    that are neither archived nor trashed" when called with both flags
    false; the text match itself is the session's own ([query_matches]). *)
Definition find (query : string) (want_archived want_trashed : option bool)
  : M (list ref) :=
  record (call_find query) ;;
  w <- read (fun w => w) ;;
  ret (select_from 0
         (fun n => query_matches w query n
                   && accepts want_archived (archived n)
                   && accepts want_trashed (trashed n))
         (nodes w)).

(** Modelled from the spec: [keep.get(note_id)] of the session object, the
    note with that identifier in the session cache, or [None]. *)
Definition get (id : string) : M (option ref) :=
  record (call_get id) ;;
  ns <- read nodes ;;
  ret (fst <$> list_find (fun n => note_id n = id) ns).

(** Modelled from the spec: [keep.createNote(title=, text=)] of the session
    object, a new note in the local cache with the given optional title and
    text. *)
Definition createNote (title text : option string) : M ref :=
  record call_createNote ;;
  id <- fresh_id ;;
  ns <- read nodes ;;
  modify (set_nodes
            (ns ++ [mkNote id title text false None false false false []])) ;;
  ret (length ns).

(** Modelled from the spec: [keep.findLabel(name)] of the session object,
    the account's label of that name, or [None]. *)
Definition findLabel (name : string) : M (option Label) :=
  record (call_findLabel name) ;;
  ls <- read account_labels ;;
  ret (List.find (fun l => String.eqb (label_name l) name) ls).

(** Modelled from the spec: [keep.createLabel(name)] of the session object,
    a new label of that name in the account.  It does not look for an
    existing one: that is the caller's part. *)
Definition createLabel (name : string) : M Label :=
  record (call_createLabel name) ;;
  id <- fresh_id ;;
  ls <- read account_labels ;;
  modify (set_account_labels (ls ++ [mkLabel id name])) ;;
  ret (mkLabel id name).

(** Modelled from the spec: [note.labels.add(label)], the note's label set
    gains the label (a label already in the set is not added twice). *)
Definition labels_add (r : ref) (l : Label) : M unit :=
  record (call_labels_add r) ;;
  assign r (with_labels (fun ls =>
    if existsb (fun l' => String.eqb (label_id l') (label_id l)) ls
    then ls else ls ++ [l])).

(** Modelled from the spec: [note.delete()], the soft delete recognised by
    the service. *)
Definition delete (r : ref) : M unit :=
  record (call_delete r) ;;
  assign r (with_deleted true).

(** Modelled from the spec: [keep.sync()], pushes the local notes and labels
    to the remote account; an upstream failure raises and pushes nothing. *)
Definition sync : M unit :=
  record call_sync ;;
  err <- read sync_error ;;
  match err with
  | Some m => raise (Exception m)
  | None => modify push_to_server
  end.

End Keep.

(** ** [server.keep_api] *)

Module KeepApi.

(** Modelled from the spec: [get_client()] of [server/keep_api.py], the
    Client Session Provider: returns the process-wide session, or raises
    when the session cannot be established.  The session is the world's
    cache, so the handle itself carries no data. *)
Definition get_client : M unit :=
  record call_get_client ;;
  err <- read auth_error ;;
  match err with
  | Some m => raise (Exception m)
  | None => ret tt
  end.

Definition OWNERSHIP_LABEL : string := "keep-mcp".

Definition has_ownership_label (n : Note) : bool :=
  existsb (fun l => String.eqb (label_name l) OWNERSHIP_LABEL) (labels n).

Definition can_modify (unsafe_mode : bool) (n : Note) : bool :=
  unsafe_mode || has_ownership_label n.

(** Modelled from the spec: [can_modify_note(note)] of [server/keep_api.py],
    the Modification Gate: true iff the override flag is enabled or the
    note's label set contains a label named as the ownership marker.  The
    flag is read at the point of decision. *)
Definition can_modify_note (r : ref) : M bool :=
  record (call_can_modify_note r) ;;
  unsafe_mode <- read UNSAFE_MODE ;;
  n <- deref r ;;
  ret (can_modify unsafe_mode n).

Definition serialize (n : Note) : json :=
  JObj [ ("id", JStr (note_id n));
         ("title", nullable (title n));
         ("text", nullable (text n));
         ("pinned", JBool (pinned n));
         ("color", nullable (color n));
         ("labels", JArr (map (fun l => JObj [("name", JStr (label_name l))])
                              (labels n))) ].

(** Modelled from the spec: [serialize_note(note)] of [server/keep_api.py],
    the Note Serializer: identifier, title, text, pinned, color and the
    list of {name} records of the note's labels at call time. *)
Definition serialize_note (r : ref) : M json :=
  record (call_serialize_note r) ;;
  n <- deref r ;;
  ret (serialize n).

End KeepApi.

(** ** HTTP responses *)

Record Response := mkResponse {
  status : nat;
  content : json;
}.

(** Starlette's [JSONResponse(content, status_code=200)]. *)
Definition JSONResponse (content : json) (status_code : nat) : Response :=
  mkResponse status_code content.

(** What FastAPI sends for a handler's outcome: 200 with the returned
    value, the status and detail of a raised [HTTPException], and a bare
    500 for an exception nobody caught. *)
Definition respond (o : outcome json) : Response :=
  match o with
  | Return v => JSONResponse v 200
  | Raise (HTTPException s d) => JSONResponse (JObj [("detail", JStr d)]) s
  | Raise (Exception _) => JSONResponse (JStr "Internal Server Error") 500
  end.

(** The two paths a health check is mounted on. *)
Inductive HealthPath :=
| path_health        (* /health *)
| path_api_health.   (* /api/health *)

(** ** Process start-up *)

(** How the served application ([mcp.run_streamable_http_async()],
    [uvicorn.run(...)]) ends once it has been launched. *)
Inductive ServerEnd :=
| server_returns
| server_KeyboardInterrupt
| server_Exception (message : string).

(** How a start-up function ends. *)
Inductive Ending :=
| returns
| raises_ValueError (literal : string)
| raises_KeyboardInterrupt
| raises_Exception (message : string)
| raises_SystemExit (code : Z).

(** The process a server is started in.  What is written to stderr
    ([traceback.print_exc()]) is not kept. *)
Record Process := mkProcess {
  environ : gmap string string;        (* os.environ *)
  server_end : ServerEnd;              (* how the launched server will end *)
  settings_host : string;              (* mcp.settings.host *)
  settings_port : Z;                   (* mcp.settings.port *)
  stdout : list string;                (* lines printed, oldest first *)
  launched : option (string * Z);      (* host and port served, if any *)
}.

(** [os.getenv(key, default)] *)
Definition getenv (key default : string) (p : Process) : string :=
  match environ p !! key with
  | Some v => v
  | None => default
  end.

(** [print(line)] *)
Definition print (line : string) (p : Process) : Process :=
  mkProcess (environ p) (server_end p) (settings_host p) (settings_port p)
    (stdout p ++ [line]) (launched p).

(** [mcp.settings.host = host] and [mcp.settings.port = port] *)
Definition set_settings (host : string) (port : Z) (p : Process) : Process :=
  mkProcess (environ p) (server_end p) host port (stdout p) (launched p).

(** The server is launched on [host] and [port]. *)
Definition launch (host : string) (port : Z) (p : Process) : Process :=
  mkProcess (environ p) (server_end p) (settings_host p) (settings_port p)
    (stdout p) (Some (host, port)).

(** The process with another environment. *)
Definition with_environ (env : gmap string string) (p : Process) : Process :=
  mkProcess env (server_end p) (settings_host p) (settings_port p)
    (stdout p) (launched p).

(** [str(n)] of a Python int, as an f-string prints it. *)
Definition str_int (n : Z) : string :=
  NilZero.string_of_int (Z.to_int n).

(** ** [src/server/rest_api.py] *)

Module RestApi.
Import KeepApi.

(** A member of a JSON request body, as the client sent it. *)
Inductive member :=
| omitted
| null
| string_value (s : string).

(** [Optional[str] = Field(None)]: the default is [None], and an explicit
    null validates to [None] as well. *)
Definition Optional_str (m : member) : option string :=
  match m with
  | omitted => None
  | null => None
  | string_value s => Some s
  end.

Record NoteCreateRequest := mkNoteCreateRequest {
  create_title : option string;
  create_text : option string;
}.

Record NoteUpdateRequest := mkNoteUpdateRequest {
  update_title : option string;
  update_text : option string;
}.

(** The request body of PUT, validated into the model. *)
Definition NoteUpdateRequest_validate (title text : member) : NoteUpdateRequest :=
  mkNoteUpdateRequest (Optional_str title) (Optional_str text).

(** [except HTTPException: raise] then
    [except Exception as e: raise HTTPException(status_code=500, detail=str(e))] *)
Definition reraise_http {A} (e : exn) : M A :=
  match e with
  | HTTPException s d => raise (HTTPException s d)
  | Exception _ => raise (HTTPException 500 (str e))
  end.

(** [except Exception as e: raise HTTPException(status_code=500, detail=str(e))]
    alone: [HTTPException] is an [Exception], so it is caught too. *)
Definition recast_all {A} (e : exn) : M A :=
  raise (HTTPException 500 (str e)).

Definition not_found (note_id : string) : exn :=
  HTTPException 404 ("Note with ID " +:+ note_id +:+ " not found").

Definition forbidden (note_id : string) : exn :=
  HTTPException 403
    ("Note with ID " +:+ note_id +:+
     " cannot be modified (missing keep-mcp label and UNSAFE_MODE is not enabled)").

Definition health_check : M json :=
  cs <- try_except (get_client ;; ret (true, "healthy"))
                   (fun _ => ret (false, "unhealthy")) ;;
  timestamp <- read clock ;;
  ret (JObj [ ("status", JStr (snd cs));
              ("timestamp", JStr timestamp);
              ("service", JStr "google-keep-rest-api");
              ("google_keep_connected", JBool (fst cs)) ]).

(** The [try] block of [search_notes].  [keep.find] yields the notes one
    by one while the comprehension serializes them; nothing is written in
    between, so the notes are selected first here. *)
Definition search_notes_try (query : string) : M json :=
  get_client ;;
  notes <- Keep.find query (Some false) (Some false) ;;
  notes_data <- mapM serialize_note notes ;;
  ret (JObj [ ("notes", JArr notes_data);
              ("count", JNum (length notes_data)) ]).

Definition search_notes (query : string) : M json :=
  try_except (search_notes_try query) recast_all.

Definition list_notes : M json := search_notes "".

Definition get_note_try (note_id : string) : M json :=
  get_client ;;
  note <- Keep.get note_id ;;
  match note with
  | None => raise (not_found note_id)
  | Some note => serialize_note note
  end.

Definition get_note (note_id : string) : M json :=
  try_except (get_note_try note_id) reraise_http.

Definition create_note_try (note : NoteCreateRequest) : M json :=
  get_client ;;
  new_note <- Keep.createNote (create_title note) (create_text note) ;;
  found <- Keep.findLabel "keep-mcp" ;;
  label <- match found with
           | Some l => ret l
           | None => Keep.createLabel "keep-mcp"
           end ;;
  Keep.labels_add new_note label ;;
  Keep.sync ;;
  serialize_note new_note.

Definition create_note (note : NoteCreateRequest) : M json :=
  try_except (create_note_try note) recast_all.

Definition update_note_try (note_id : string) (note_update : NoteUpdateRequest)
  : M json :=
  get_client ;;
  note <- Keep.get note_id ;;
  match note with
  | None => raise (not_found note_id)
  | Some note =>
      ok <- can_modify_note note ;;
      if negb ok then raise (forbidden note_id) else
      match update_title note_update with
      | Some t => assign note (with_title (Some t))
      | None => ret tt
      end ;;
      match update_text note_update with
      | Some t => assign note (with_text (Some t))
      | None => ret tt
      end ;;
      Keep.sync ;;
      serialize_note note
  end.

Definition update_note (note_id : string) (note_update : NoteUpdateRequest)
  : M json :=
  try_except (update_note_try note_id note_update) reraise_http.

Definition delete_note_try (note_id : string) : M json :=
  get_client ;;
  note <- Keep.get note_id ;;
  match note with
  | None => raise (not_found note_id)
  | Some note =>
      ok <- can_modify_note note ;;
      if negb ok then raise (forbidden note_id) else
      Keep.delete note ;;
      Keep.sync ;;
      ret (JObj [ ("message", JStr ("Note " +:+ note_id +:+ " marked for deletion"));
                  ("status", JStr "success") ])
  end.

Definition delete_note (note_id : string) : M json :=
  try_except (delete_note_try note_id) reraise_http.

(** A request served by FastAPI: the handler runs, its outcome is sent.
    ([response_model=NoteResponse] on create and update declares the six
    fields the serializer produces and passes them through.) *)
Definition serve (h : M json) (w : World) : Response * World :=
  let (o, w') := h w in (respond o, w').

(** [response_model=HealthResponse]: the returned dict is completed with
    the model's default, [version: str = "1.0.0"]. *)
Definition HealthResponse (v : json) : json :=
  match v with
  | JObj fields => JObj (fields ++ [("version", JStr "1.0.0")])
  | _ => v
  end.

(** [@app.get("/health", response_model=HealthResponse)] and
    [@app.get("/api/health", response_model=HealthResponse)], one function. *)
Definition GET_health (p : HealthPath) : World -> Response * World :=
  match p with
  | path_health => serve (v <- health_check ;; ret (HealthResponse v))
  | path_api_health => serve (v <- health_check ;; ret (HealthResponse v))
  end.

(** The [if __name__ == "__main__":] block.  [int] is Python's [int()] on
    a str, [None] standing for the ValueError it raises; nothing here
    catches what [uvicorn.run] raises. *)
Definition main (int : string -> option Z) (p : Process) : Ending * Process :=
  let host := getenv "REST_API_HOST" "0.0.0.0" p in
  match int (getenv "REST_API_PORT" "8001" p) with
  | None => (raises_ValueError (getenv "REST_API_PORT" "8001" p), p)
  | Some port =>
      let p := print ("Starting Google Keep REST API server on "
                      +:+ host +:+ ":" +:+ str_int port) p in
      let p := print ("Documentation available at http://"
                      +:+ host +:+ ":" +:+ str_int port +:+ "/docs") p in
      let p := launch host port p in
      match server_end p with
      | server_returns => (returns, p)
      | server_KeyboardInterrupt => (raises_KeyboardInterrupt, p)
      | server_Exception m => (raises_Exception m, p)
      end
  end.

End RestApi.

(** ** [src/server/standalone_http.py] *)

Module StandaloneHttp.
Import KeepApi.

Definition health_check : M Response :=
  try_except
    (get_client ;;
     ret (JSONResponse
            (JObj [ ("status", JStr "healthy");
                    ("service", JStr "google-keep-mcp");
                    ("google_keep_connected", JBool true) ])
            200))
    (fun e =>
     ret (JSONResponse
            (JObj [ ("status", JStr "unhealthy");
                    ("service", JStr "google-keep-mcp");
                    ("google_keep_connected", JBool false);
                    ("error", JStr (str e)) ])
            503)).

Definition api_health_check : M Response := health_check.

(** [@mcp.custom_route("/health", ["GET"])] and
    [@mcp.custom_route("/api/health", ["GET"])]. *)
Definition GET_health (p : HealthPath) : M Response :=
  match p with
  | path_health => health_check
  | path_api_health => api_health_check
  end.

(** [run_http_server()]; [int] is Python's [int()] on a str, [None]
    standing for the ValueError it raises. *)
Definition run_http_server (int : string -> option Z) (p : Process)
  : Ending * Process :=
  let host := getenv "MCP_HOST" "0.0.0.0" p in
  match int (getenv "MCP_PORT" "8000" p) with
  | None => (raises_ValueError (getenv "MCP_PORT" "8000" p), p)
  | Some port =>
      let path := getenv "MCP_PATH" "/mcp" p in
      let p := print "Starting Google Keep MCP Server with HTTP transport" p in
      let p := print ("MCP endpoint: http://" +:+ host +:+ ":"
                      +:+ str_int port +:+ path +:+ "/") p in
      let p := print ("Health check: http://" +:+ host +:+ ":"
                      +:+ str_int port +:+ "/health") p in
      let p := set_settings host port p in
      let p := launch (settings_host p) (settings_port p) p in
      match server_end p with
      | server_returns => (returns, p)
      | server_KeyboardInterrupt =>
          (returns, print (String (Ascii.ascii_of_nat 10) "Shutting down server...") p)
      | server_Exception m =>
          (raises_SystemExit 1, print ("Error starting server: " +:+ m) p)
      end
  end.

End StandaloneHttp.

(** ** [src/server/http_server.py] *)

Module HttpServer.

(** [run_http_server()]; [int] is Python's [int()] on a str, [None]
    standing for the ValueError it raises.  [path] is read and not used. *)
Definition run_http_server (int : string -> option Z) (p : Process)
  : Ending * Process :=
  let host := getenv "MCP_HOST" "0.0.0.0" p in
  match int (getenv "MCP_PORT" "8000" p) with
  | None => (raises_ValueError (getenv "MCP_PORT" "8000" p), p)
  | Some port =>
      let path := getenv "MCP_PATH" "/mcp" p in
      let p := print "Starting Google Keep MCP Server with HTTP transport" p in
      let p := print ("MCP endpoint: http://" +:+ host +:+ ":"
                      +:+ str_int port +:+ "/mcp/") p in
      let p := set_settings host port p in
      let p := launch (settings_host p) (settings_port p) p in
      match server_end p with
      | server_returns => (returns, p)
      | server_KeyboardInterrupt =>
          (returns, print (String (Ascii.ascii_of_nat 10) "Shutting down server...") p)
      | server_Exception m =>
          (raises_SystemExit 1, print ("Error starting server: " +:+ m) p)
      end
  end.

End HttpServer.

(** ** Sample worlds *)

Definition substring_match (q : string) (n : Note) : bool :=
  match String.index 0 q (default "" (title n)), String.index 0 q (default "" (text n)) with
  | None, None => false
  | _, _ => true
  end.

Definition owned_note : Note :=
  mkNote "a1" (Some "groceries") (Some "milk") false None false false false
    [mkLabel "L1" "keep-mcp"].

Definition foreign_note : Note :=
  mkNote "b2" None None true (Some "RED") false false false
    [mkLabel "L2" "work"].

Definition archived_note : Note :=
  mkNote "c3" (Some "old") (Some "milk run") false None true false false [].

Definition sample_world : World :=
  mkWorld false "2024-01-01T00:00:00" None None substring_match
    [owned_note; foreign_note; archived_note]
    [mkLabel "L1" "keep-mcp"; mkLabel "L2" "work"]
    7 [] [] [].

Definition offline_world : World :=
  mkWorld false "2024-01-01T00:00:00" (Some "BadAuthentication") None
    substring_match [] [] 0 [] [] [].

(** ** Where a note lives *)

(** The object [keep.get(id)] hands out: the first note of the cache with
    that identifier, at reference [r], currently holding [n]. *)
Definition cached (w : World) (id : string) (r : ref) (n : Note) : Prop :=
  list_find (fun m => note_id m = id) (nodes w) = Some (r, n).

(** No note of the cache has the identifier. *)
Definition absent (w : World) (id : string) : Prop :=
  forall n, n ∈ nodes w -> note_id n <> id.

(** The propagation policy between the try block [body] of a handler and
    the handler [h] itself, in the world [w]: a returned value is returned,
    an HTTPException leaves with its own status and detail, any other
    exception leaves as HTTPException 500 carrying its message; the world
    is the one the try block left. *)
Definition propagates {A} (body h : M A) (w : World) : Prop :=
  match body w with
  | (Return v, w') => h w = (Return v, w')
  | (Raise (HTTPException s d), w') => h w = (Raise (HTTPException s d), w')
  | (Raise (Exception m), w') => h w = (Raise (HTTPException 500 m), w')
  end.

(** A fresh account: no notes, no labels, session established. *)
Definition empty_world : World :=
  mkWorld false "2024-01-01T00:00:00" None None substring_match
    [] [] 0 [] [] [].

(** The sample account behind a service whose sync fails. *)
Definition flaky_world : World :=
  mkWorld true "2024-01-01T00:00:00" None (Some "upstream timeout")
    substring_match
    [owned_note; foreign_note; archived_note]
    [mkLabel "L1" "keep-mcp"; mkLabel "L2" "work"]
    7 [] [] [].

(** Calls that only read: the session provider, the two look-ups and the
    serializer. *)
Definition read_call (c : Call) : bool :=
  match c with
  | call_get_client | call_find _ | call_get _ | call_serialize_note _ => true
  | _ => false
  end.

(** From [w] to [w'] nothing moved but, at most, the note [keep.get(id)]
    hands out, and of that note neither the identifier nor pinned, color,
    archived, trashed or the labels: no note was added or removed, the
    account's labels are the same. *)
Definition confined_to (id : string) (w w' : World) : Prop :=
  length (nodes w') = length (nodes w) /\
  account_labels w' = account_labels w /\
  forall (r : ref) (n : Note),
    nodes w !! r = Some n ->
    exists n',
      nodes w' !! r = Some n' /\
      note_id n' = note_id n /\ pinned n' = pinned n /\ color n' = color n /\
      archived n' = archived n /\ trashed n' = trashed n /\
      labels n' = labels n /\
      (title n' <> title n \/ text n' <> text n \/ deleted n' <> deleted n ->
       list_find (fun m => note_id m = id) (nodes w) = Some (r, n)).

(** [body[key]] of a JSON object. *)
Definition json_field (key : string) (v : json) : option json :=
  match v with
  | JObj fields =>
      snd <$> List.find (fun kv => String.eqb (fst kv) key) fields
  | _ => None
  end.

(** Whether the session provider succeeds in [w]. *)
Definition session_available (w : World) : bool :=
  match auth_error w with
  | None => true
  | Some _ => false
  end.

(** A sample [int]: the value of a non-empty string of ASCII digits, as
    Python's [int()] gives it; every other string is refused here. *)
Definition int_of_digits (s : string) : option Z :=
  match s with
  | "" => None
  | _ => Z.of_uint <$> NilZero.uint_of_string s
  end.

(** A process about to start a server, with a port set in its environment. *)
Definition sample_process : Process :=
  mkProcess (<["MCP_PORT" := "9000"]> ∅) (server_Exception "address in use")
    "127.0.0.1" 8000 [] None.

(** A process whose port variable does not hold an integer. *)
Definition misconfigured_process : Process :=
  mkProcess (<["MCP_PORT" := "http"]> (<["REST_API_PORT" := "rest"]> ∅))
    server_returns "127.0.0.1" 8000 [] None.

(** How a run_http_server function [run] behaves in [p] once the port
    literal was read as [port]: the settings are the host of the
    environment and the port, the server is launched on them, the function
    exits with status 1 exactly when the server raised an exception, having
    printed it last, and returns otherwise, with the shutdown line printed
    last exactly when the server was interrupted. *)
Definition supervises (run : Process -> Ending * Process) (p : Process)
  (port : Z) : Prop :=
  let host := getenv "MCP_HOST" "0.0.0.0" p in
  settings_host (snd (run p)) = host /\
  settings_port (snd (run p)) = port /\
  launched (snd (run p)) = Some (host, port) /\
  (fst (run p) = raises_SystemExit 1 <->
   exists m, server_end p = server_Exception m) /\
  (fst (run p) = returns <->
   server_end p = server_returns \/ server_end p = server_KeyboardInterrupt) /\
  (forall m, server_end p = server_Exception m ->
             last (stdout (snd (run p))) = Some ("Error starting server: " +:+ m)) /\
  (server_end p = server_KeyboardInterrupt ->
   last (stdout (snd (run p)))
     = Some (String (Ascii.ascii_of_nat 10) "Shutting down server...")).

(** * Properties *)

Section Basics.

Lemma cached_lookup w id r n : cached w id r n -> nodes w !! r = Some n.
Proof. intros H. apply list_find_Some in H. tauto. Qed.

Lemma cached_note_id w id r n : cached w id r n -> note_id n = id.
Proof. intros H. apply list_find_Some in H. tauto. Qed.

Lemma absent_find w id :
  absent w id -> list_find (fun m => note_id m = id) (nodes w) = None.
Proof.
  intros H. apply list_find_None, Forall_forall. intros n Hn. exact (H n Hn).
Qed.

(** In a cache keyed by identifier every note is the one [get] returns. *)
Lemma cached_unique_ids w n :
  NoDup (note_id <$> nodes w) -> n ∈ nodes w ->
  exists r, cached w (note_id n) r n.
Proof.
  intros Hnd Hin. apply list_elem_of_lookup in Hin as [r Hr].
  exists r. apply list_find_Some. repeat split; auto.
  intros j m Hj Hlt Heq.
  assert (Hjr : j = r).
  { eapply NoDup_lookup; [exact Hnd | |].
    - rewrite list_lookup_fmap, Hj. reflexivity.
    - rewrite list_lookup_fmap, Hr. simpl. congruence. }
  lia.
Qed.

Lemma note_eta n :
  mkNote (note_id n) (title n) (text n) (pinned n) (color n) (archived n)
    (trashed n) (deleted n) (labels n) = n.
Proof. destruct n. reflexivity. Qed.

(** The call record is kept apart from the data: recorded calls add up,
    and recording commutes with every change of the data. *)
Lemma called_called a b w : called b (called a w) = called (a ++ b) w.
Proof.
  unfold called. cbn. rewrite <- app_assoc. reflexivity.
Qed.

Lemma set_nodes_called ns cs w :
  set_nodes ns (called cs w) = called cs (set_nodes ns w).
Proof. reflexivity. Qed.

Lemma set_account_labels_called ls cs w :
  set_account_labels ls (called cs w) = called cs (set_account_labels ls w).
Proof. reflexivity. Qed.

Lemma set_entropy_called k cs w :
  set_entropy k (called cs w) = called cs (set_entropy k w).
Proof. reflexivity. Qed.

Lemma set_nodes_set_nodes a b w : set_nodes a (set_nodes b w) = set_nodes a w.
Proof. reflexivity. Qed.

Lemma push_to_server_called cs w :
  push_to_server (called cs w) = called cs (push_to_server w).
Proof. reflexivity. Qed.

End Basics.

Create Rewrite HintDb world.
#[local] Hint Rewrite called_called set_nodes_called set_account_labels_called
  set_entropy_called push_to_server_called set_nodes_set_nodes : world.

(** Both sides describe the same world once the record is gathered. *)
Ltac settle := autorewrite with world; cbn [app]; reflexivity.

(** Unfolding a handler down to the world it runs in. *)
Ltac run :=
  unfold RestApi.update_note, RestApi.delete_note, RestApi.get_note,
    RestApi.create_note, RestApi.search_notes,
    RestApi.update_note_try, RestApi.delete_note_try, RestApi.get_note_try,
    RestApi.create_note_try, RestApi.search_notes_try,
    RestApi.reraise_http, RestApi.recast_all,
    KeepApi.get_client, KeepApi.can_modify_note, KeepApi.serialize_note,
    Keep.get, Keep.find, Keep.sync, Keep.delete, Keep.labels_add,
    Keep.createNote, Keep.createLabel, Keep.findLabel, Keep.fresh_id,
    try_except, bind, ret, raise, record, read, modify, deref;
  cbn [fst snd nodes calls auth_error sync_error UNSAFE_MODE clock entropy
       account_labels server_nodes server_labels query_matches
       called set_nodes set_account_labels set_entropy push_to_server].

Lemma serialize_note_ok (w : World) (r : ref) (n : Note) :
  nodes w !! r = Some n ->
  KeepApi.serialize_note r w
    = (Return (KeepApi.serialize n), called [call_serialize_note r] w).
Proof.
  intros Hn. run. rewrite Hn. reflexivity.
Qed.

(** C1: the Modification Gate answers true exactly when the override flag
    is enabled or the note carries a label named "keep-mcp"; it changes
    nothing in the world except that the call is on record. *)
Theorem can_modify_note_iff (w : World) (r : ref) (n : Note) :
  nodes w !! r = Some n ->
  exists b : bool,
    KeepApi.can_modify_note r w
      = (Return b, called [call_can_modify_note r] w) /\
    (b = true <->
       UNSAFE_MODE w = true \/
       exists l, l ∈ labels n /\ label_name l = "keep-mcp").
Proof.
  intros Hn. exists (KeepApi.can_modify (UNSAFE_MODE w) n). split.
  - run. rewrite Hn. reflexivity.
  - unfold KeepApi.can_modify, KeepApi.has_ownership_label.
    rewrite orb_true_iff, existsb_exists.
    split; (intros [Hu | (l & Hl & Hname)]; [left; exact Hu | right]).
    + exists l. split; [apply list_elem_of_In; exact Hl |].
      apply String.eqb_eq in Hname. exact Hname.
    + exists l. split; [apply list_elem_of_In; exact Hl |].
      apply String.eqb_eq. exact Hname.
Qed.

Lemma can_modify_note_iff_witness :
  nodes sample_world !! 0 = Some owned_note /\
  exists b : bool,
    KeepApi.can_modify_note 0 sample_world
      = (Return b, called [call_can_modify_note 0] sample_world) /\
    (b = true <->
       UNSAFE_MODE sample_world = true \/
       exists l, l ∈ labels owned_note /\ label_name l = "keep-mcp").
Proof.
  split; [reflexivity |].
  apply (can_modify_note_iff sample_world 0 owned_note). reflexivity.
Defined.

(** C6: serializing a note never raises, whatever is null or empty in it;
    the result has exactly the fields id, title, text, pinned, color and
    labels, each taken unchanged from the note, the labels as {name}
    records in the order of the note's label set; the cache, the account
    and the remote side stay as they were (only the call is on record). *)
Theorem serialize_note_total (w : World) (r : ref) (n : Note) :
  nodes w !! r = Some n ->
  KeepApi.serialize_note r w
    = (Return
         (JObj [ ("id", JStr (note_id n));
                 ("title", match title n with Some s => JStr s | None => JNull end);
                 ("text", match text n with Some s => JStr s | None => JNull end);
                 ("pinned", JBool (pinned n));
                 ("color", match color n with Some s => JStr s | None => JNull end);
                 ("labels",
                  JArr ((fun l => JObj [("name", JStr (label_name l))])
                          <$> labels n)) ]),
       called [call_serialize_note r] w).
Proof.
  intros Hn. rewrite (serialize_note_ok w r n Hn).
  unfold KeepApi.serialize, nullable. reflexivity.
Qed.

Lemma serialize_note_total_witness :
  KeepApi.serialize_note 1 sample_world
    = (Return
         (JObj [ ("id", JStr "b2"); ("title", JNull); ("text", JNull);
                 ("pinned", JBool true); ("color", JStr "RED");
                 ("labels", JArr [JObj [("name", JStr "work")]]) ]),
       called [call_serialize_note 1] sample_world).
Proof.
  apply (serialize_note_total sample_world 1 foreign_note). reflexivity.
Defined.

(** C2: with the session established, update and delete of an identifier
    that no cached note has raise HTTPException 404, and update and delete
    of a cached note the gate rejects raise HTTPException 403.  In the 403
    case the calls made are get_client, keep.get and the gate, in that
    order, and nothing else of the world has changed: no attribute was
    assigned, nothing was marked deleted, no sync was issued. *)
Theorem update_delete_rejected
  (w : World) (id : string) (upd : RestApi.NoteUpdateRequest) :
  auth_error w = None ->
  (absent w id ->
     RestApi.update_note id upd w
       = (Raise (HTTPException 404 ("Note with ID " +:+ id +:+ " not found")),
          called [call_get_client; call_get id] w) /\
     RestApi.delete_note id w
       = (Raise (HTTPException 404 ("Note with ID " +:+ id +:+ " not found")),
          called [call_get_client; call_get id] w)) /\
  (forall r n,
     cached w id r n ->
     KeepApi.can_modify (UNSAFE_MODE w) n = false ->
     RestApi.update_note id upd w
       = (Raise (RestApi.forbidden id),
          called [call_get_client; call_get id; call_can_modify_note r] w) /\
     RestApi.delete_note id w
       = (Raise (RestApi.forbidden id),
          called [call_get_client; call_get id; call_can_modify_note r] w) /\
     RestApi.forbidden id
       = HTTPException 403
           ("Note with ID " +:+ id +:+
            " cannot be modified (missing keep-mcp label and UNSAFE_MODE is not enabled)")).
Proof.
  intros Hauth. split.
  - intros Habs. apply absent_find in Habs.
    split; run; rewrite Hauth; cbn; rewrite Habs; cbn; settle.
  - intros r n Hc Hgate. pose proof (cached_lookup _ _ _ _ Hc) as Hn.
    unfold cached in Hc.
    repeat split; run; rewrite Hauth; cbn; rewrite Hc; cbn;
      rewrite Hn, Hgate; cbn; settle.
Qed.

Lemma update_delete_rejected_witness :
  (RestApi.update_note "zz" (RestApi.mkNoteUpdateRequest (Some "t") None) sample_world
     = (Raise (HTTPException 404 "Note with ID zz not found"),
        called [call_get_client; call_get "zz"] sample_world) /\
   RestApi.delete_note "zz" sample_world
     = (Raise (HTTPException 404 "Note with ID zz not found"),
        called [call_get_client; call_get "zz"] sample_world)) /\
  RestApi.update_note "b2" (RestApi.mkNoteUpdateRequest (Some "t") None) sample_world
    = (Raise (RestApi.forbidden "b2"),
       called [call_get_client; call_get "b2"; call_can_modify_note 1] sample_world).
Proof.
  split.
  - apply (update_delete_rejected sample_world "zz"); [reflexivity |].
    intros n Hn. cbn in Hn.
    rewrite !elem_of_cons, elem_of_nil in Hn.
    destruct Hn as [-> | [-> | [-> | []]]]; discriminate.
  - apply (proj2 (update_delete_rejected sample_world "b2"
                    (RestApi.mkNoteUpdateRequest (Some "t") None) eq_refl)
             1 foreign_note); reflexivity.
Defined.

(** C10: reading is not gated.  With the session established, get_note of
    a cached note returns its serialization whatever the override flag
    and whatever labels the note has; the calls made are get_client,
    keep.get and the serializer, so the gate is not consulted, nothing is
    assigned and no sync is issued. *)
Theorem get_note_ungated (w : World) (id : string) (r : ref) (n : Note) :
  auth_error w = None ->
  cached w id r n ->
  RestApi.get_note id w
    = (Return (KeepApi.serialize n),
       called [call_get_client; call_get id; call_serialize_note r] w).
Proof.
  intros Hauth Hc. pose proof (cached_lookup _ _ _ _ Hc) as Hn.
  unfold cached in Hc.
  run. rewrite Hauth. cbn. rewrite Hc. cbn. rewrite Hn. cbn. settle.
Qed.

Lemma get_note_ungated_witness :
  RestApi.get_note "b2" sample_world
    = (Return (KeepApi.serialize foreign_note),
       called [call_get_client; call_get "b2"; call_serialize_note 1] sample_world).
Proof.
  apply (get_note_ungated sample_world "b2" 1 foreign_note); reflexivity.
Defined.

(** C7: in get_note, update_note and delete_note an HTTPException raised in
    the try block (the 404 and 403 of the handler) reaches the caller with
    its own status code and detail; every other exception reaches the
    caller as HTTPException 500 with the exception's message as detail; a
    try block that raised never makes the handler return. *)
Theorem handlers_propagate_errors
  (w : World) (id : string) (upd : RestApi.NoteUpdateRequest) :
  propagates (RestApi.get_note_try id) (RestApi.get_note id) w /\
  propagates (RestApi.update_note_try id upd) (RestApi.update_note id upd) w /\
  propagates (RestApi.delete_note_try id) (RestApi.delete_note id) w.
Proof.
  unfold propagates, RestApi.get_note, RestApi.update_note,
    RestApi.delete_note, try_except.
  repeat split.
  - destruct (RestApi.get_note_try id w) as [[v | [s d | m]] w']; reflexivity.
  - destruct (RestApi.update_note_try id upd w) as [[v | [s d | m]] w'];
      reflexivity.
  - destruct (RestApi.delete_note_try id w) as [[v | [s d | m]] w'];
      reflexivity.
Qed.

(** The three kinds of error do occur: a 404 and a 403 of the handler, an
    authentication failure and a failing sync, each as it leaves. *)
Example get_note_404 :
  fst (RestApi.get_note "zz" sample_world)
    = Raise (HTTPException 404 "Note with ID zz not found").
Proof. reflexivity. Qed.

Example delete_note_403 :
  fst (RestApi.delete_note "b2" sample_world)
    = Raise (HTTPException 403
        "Note with ID b2 cannot be modified (missing keep-mcp label and UNSAFE_MODE is not enabled)").
Proof. reflexivity. Qed.

Example get_note_500_offline :
  fst (RestApi.get_note "a1" offline_world)
    = Raise (HTTPException 500 "BadAuthentication").
Proof. reflexivity. Qed.

Example update_note_500_sync :
  fst (RestApi.update_note "b2" (RestApi.mkNoteUpdateRequest (Some "t") None)
         flaky_world)
    = Raise (HTTPException 500 "upstream timeout").
Proof. reflexivity. Qed.

(** C8 as stated fails on the REST surface: with the session provider
    failing, its health route answers 200, not 503. *)
Lemma rest_health_check_offline_200 :
  auth_error offline_world = Some "BadAuthentication" /\
  status (fst (RestApi.GET_health path_health offline_world)) = 200 /\
  status (fst (RestApi.GET_health path_health offline_world)) <> 503.
Proof.
  split; [reflexivity |]. split; [reflexivity |]. cbn. discriminate.
Qed.

(** C8, amended: when the session provider fails, every health route of
    both surfaces answers without raising, with status "unhealthy" and
    google_keep_connected false; the routes of the tool-invocation surface
    answer with HTTP 503 and the error message, the routes of the REST
    surface with the handler's ordinary return, HTTP 200. *)
Theorem health_checks_unhealthy (w : World) (m : string) (p : HealthPath) :
  auth_error w = Some m ->
  RestApi.health_check w
    = (Return (JObj [ ("status", JStr "unhealthy");
                      ("timestamp", JStr (clock w));
                      ("service", JStr "google-keep-rest-api");
                      ("google_keep_connected", JBool false) ]),
       called [call_get_client] w) /\
  RestApi.GET_health p w
    = (JSONResponse
         (JObj [ ("status", JStr "unhealthy");
                 ("timestamp", JStr (clock w));
                 ("service", JStr "google-keep-rest-api");
                 ("google_keep_connected", JBool false);
                 ("version", JStr "1.0.0") ])
         200,
       called [call_get_client] w) /\
  StandaloneHttp.GET_health p w
    = (Return
         (JSONResponse
            (JObj [ ("status", JStr "unhealthy");
                    ("service", JStr "google-keep-mcp");
                    ("google_keep_connected", JBool false);
                    ("error", JStr m) ])
            503),
       called [call_get_client] w).
Proof.
  intros Hauth.
  assert (Hrest : RestApi.health_check w
    = (Return (JObj [ ("status", JStr "unhealthy");
                      ("timestamp", JStr (clock w));
                      ("service", JStr "google-keep-rest-api");
                      ("google_keep_connected", JBool false) ]),
       called [call_get_client] w)).
  { unfold RestApi.health_check. run. rewrite Hauth. reflexivity. }
  split; [exact Hrest |]. split.
  - destruct p; unfold RestApi.GET_health, RestApi.serve, bind;
      rewrite Hrest; reflexivity.
  - destruct p; unfold StandaloneHttp.GET_health,
      StandaloneHttp.api_health_check, StandaloneHttp.health_check;
      run; rewrite Hauth; reflexivity.
Qed.

Lemma health_checks_unhealthy_witness :
  StandaloneHttp.GET_health path_api_health offline_world
    = (Return
         (JSONResponse
            (JObj [ ("status", JStr "unhealthy");
                    ("service", JStr "google-keep-mcp");
                    ("google_keep_connected", JBool false);
                    ("error", JStr "BadAuthentication") ])
            503),
       called [call_get_client] offline_world).
Proof.
  apply (health_checks_unhealthy offline_world "BadAuthentication"
           path_api_health).
  reflexivity.
Defined.

(** C3: update is a partial update.  For a cached note the gate admits,
    with the session established and the sync succeeding, the note keeps
    every attribute except that a supplied title and a supplied text
    replace the old ones; a sync is issued after the assignments and the
    answer is the serialization of the updated note, sent with HTTP 200.
    With neither field supplied the note and the cache are as before, the
    sync is issued all the same and the answer is again a 200. *)
Theorem update_note_partial
  (w : World) (id : string) (upd : RestApi.NoteUpdateRequest)
  (r : ref) (n : Note) :
  auth_error w = None ->
  sync_error w = None ->
  cached w id r n ->
  KeepApi.can_modify (UNSAFE_MODE w) n = true ->
  let n' :=
    mkNote (note_id n)
      (match RestApi.update_title upd with Some t => Some t | None => title n end)
      (match RestApi.update_text upd with Some t => Some t | None => text n end)
      (pinned n) (color n) (archived n) (trashed n) (deleted n) (labels n) in
  RestApi.update_note id upd w
    = (Return (KeepApi.serialize n'),
       called [call_get_client; call_get id; call_can_modify_note r;
               call_sync; call_serialize_note r]
         (push_to_server (set_nodes (<[r := n']> (nodes w)) w))) /\
  status (fst (RestApi.serve (RestApi.update_note id upd) w)) = 200 /\
  (RestApi.update_title upd = None -> RestApi.update_text upd = None ->
   n' = n /\ <[r := n']> (nodes w) = nodes w).
Proof.
  intros Hauth Hsync Hc Hgate n'.
  pose proof (cached_lookup _ _ _ _ Hc) as Hn.
  pose proof (lookup_lt_Some _ _ _ Hn) as Hlt.
  unfold cached in Hc.
  assert (Hrun : RestApi.update_note id upd w
    = (Return (KeepApi.serialize n'),
       called [call_get_client; call_get id; call_can_modify_note r;
               call_sync; call_serialize_note r]
         (push_to_server (set_nodes (<[r := n']> (nodes w)) w)))).
  { subst n'. destruct upd as [[t |] [x |]];
      cbn [RestApi.update_title RestApi.update_text];
      try rewrite note_eta, (list_insert_id _ _ _ Hn);
      run; unfold assign;
      rewrite Hauth; cbn; rewrite Hc; cbn; rewrite Hn, Hgate;
      repeat (progress
        (cbn; rewrite ?Hn, ?Hsync, ?list_insert_insert_eq;
         rewrite ?list_lookup_insert_eq by (rewrite ?length_insert; exact Hlt)));
      settle. }
  split; [exact Hrun |]. split.
  - unfold RestApi.serve. rewrite Hrun. reflexivity.
  - intros Ht Hx. subst n'. rewrite Ht, Hx, note_eta.
    split; [reflexivity |]. apply list_insert_id. exact Hn.
Qed.

Lemma update_note_partial_witness :
  RestApi.update_note "a1" (RestApi.mkNoteUpdateRequest None (Some "eggs"))
    sample_world
    = (Return (KeepApi.serialize
                 (mkNote "a1" (Some "groceries") (Some "eggs") false None
                    false false false [mkLabel "L1" "keep-mcp"])),
       called [call_get_client; call_get "a1"; call_can_modify_note 0;
               call_sync; call_serialize_note 0]
         (push_to_server
            (set_nodes
               [mkNote "a1" (Some "groceries") (Some "eggs") false None
                  false false false [mkLabel "L1" "keep-mcp"];
                foreign_note; archived_note]
               sample_world))).
Proof.
  apply (update_note_partial sample_world "a1"
           (RestApi.mkNoteUpdateRequest None (Some "eggs")) 0 owned_note);
    reflexivity.
Defined.

(** C9: a request body whose title (or text) is an explicit null is
    validated to the same request as one that omits the member, so the two
    updates run alike in every world; and whatever an update is given and
    however it ends, a note that had a title still has one and a note that
    had a text still has one: no update clears either to null. *)
Theorem update_note_null_is_omitted
  (w : World) (id : string) (t x : RestApi.member) :
  RestApi.update_note id (RestApi.NoteUpdateRequest_validate RestApi.null x) w
    = RestApi.update_note id
        (RestApi.NoteUpdateRequest_validate RestApi.omitted x) w /\
  RestApi.update_note id (RestApi.NoteUpdateRequest_validate t RestApi.null) w
    = RestApi.update_note id
        (RestApi.NoteUpdateRequest_validate t RestApi.omitted) w /\
  forall (r : ref) (n : Note),
    nodes w !! r = Some n ->
    exists n',
      nodes (snd (RestApi.update_note id
                    (RestApi.NoteUpdateRequest_validate t x) w)) !! r = Some n' /\
      (is_Some (title n) -> is_Some (title n')) /\
      (is_Some (text n) -> is_Some (text n')).
Proof.
  split; [reflexivity |]. split; [reflexivity |].
  intros r n Hn.
  assert (Hkeep : exists n',
            nodes w !! r = Some n' /\
            (is_Some (title n) -> is_Some (title n')) /\
            (is_Some (text n) -> is_Some (text n'))).
  { exists n. auto. }
  run. destruct (auth_error w); cbn; [exact Hkeep |].
  destruct (list_find _ (nodes w)) as [[r0 n0] |] eqn:Hfind; cbn;
    [| exact Hkeep].
  apply list_find_Some in Hfind as (Hn0 & _ & _). rewrite Hn0. cbn.
  destruct (KeepApi.can_modify (UNSAFE_MODE w) n0); cbn; [| exact Hkeep].
  pose proof (lookup_lt_Some _ _ _ Hn0) as Hlt.
  assert (Hins : forall m : Note,
            (is_Some (title n0) -> is_Some (title m)) ->
            (is_Some (text n0) -> is_Some (text m)) ->
            exists n',
              <[r0 := m]> (nodes w) !! r = Some n' /\
              (is_Some (title n) -> is_Some (title n')) /\
              (is_Some (text n) -> is_Some (text n'))).
  { intros m Ht Hx. destruct (decide (r0 = r)) as [-> | Hne].
    - exists m. rewrite list_lookup_insert_eq by exact Hlt.
      assert (n0 = n) by congruence. subst n0. auto.
    - exists n. rewrite list_lookup_insert_ne by exact Hne. auto. }
  unfold assign.
  destruct t as [| | tv], x as [| | xv]; cbn;
    repeat (progress
      (cbn; rewrite ?Hn0, ?list_insert_insert_eq;
       rewrite ?list_lookup_insert_eq by (rewrite ?length_insert; exact Hlt)));
    destruct (sync_error w); cbn;
    repeat (progress
      (cbn; rewrite ?Hn0, ?list_insert_insert_eq;
       rewrite ?list_lookup_insert_eq by (rewrite ?length_insert; exact Hlt)));
    try exact Hkeep;
    apply Hins; cbn; auto; intros _; eexists; reflexivity.
Qed.

Lemma update_note_null_is_omitted_witness :
  exists n',
    nodes (snd (RestApi.update_note "a1"
                  (RestApi.NoteUpdateRequest_validate RestApi.null
                     (RestApi.string_value "eggs"))
                  sample_world)) !! 0 = Some n' /\
    is_Some (title n') /\ is_Some (text n').
Proof.
  destruct (proj2 (proj2 (update_note_null_is_omitted sample_world "a1"
                            RestApi.null (RestApi.string_value "eggs")))
              0 owned_note eq_refl) as (n' & Hn' & Ht & Hx).
  exists n'. split; [exact Hn' |].
  split; [apply Ht | apply Hx]; eexists; reflexivity.
Defined.

Lemma select_from_ext (P Q : Note -> bool) (i : ref) (ns : list Note) :
  (forall n, P n = Q n) -> Keep.select_from i P ns = Keep.select_from i Q ns.
Proof.
  intros HPQ. revert i. induction ns as [| n ns IH]; intros i; cbn.
  - reflexivity.
  - rewrite HPQ, !IH. reflexivity.
Qed.

(** Serializing the notes a search selected, one after the other, yields
    the serializations of the selected notes in cache order. *)
Lemma mapM_serialize_select (P : Note -> bool) (ns pre : list Note) (w : World) :
  nodes w = pre ++ ns ->
  mapM KeepApi.serialize_note (Keep.select_from (length pre) P ns) w
    = (Return (KeepApi.serialize <$> List.filter P ns),
       called (call_serialize_note <$> Keep.select_from (length pre) P ns) w).
Proof.
  revert pre w. induction ns as [| n ns IH]; intros pre w Hw.
  - cbn. unfold ret. f_equal. destruct w; unfold called; cbn.
    rewrite app_nil_r. reflexivity.
  - assert (Hw' : nodes w = (pre ++ [n]) ++ ns)
      by (rewrite <- app_assoc; exact Hw).
    assert (Hlen : length (pre ++ [n]) = S (length pre))
      by (rewrite length_app; cbn; lia).
    cbn [Keep.select_from List.filter]. destruct (P n).
    + cbn [mapM fmap list_fmap]. unfold bind, ret.
      rewrite (serialize_note_ok w (length pre) n)
        by (rewrite Hw; apply list_lookup_middle; reflexivity).
      cbv beta iota. rewrite <- Hlen.
      rewrite (IH (pre ++ [n]) (called [call_serialize_note (length pre)] w) Hw').
      rewrite Hlen. settle.
    + rewrite <- Hlen. rewrite (IH (pre ++ [n]) w Hw'). reflexivity.
Qed.

(** C5: with the session established, search_notes answers, for every
    query, with the serializations of exactly the cached notes that the
    session's search matches and that are neither archived nor trashed, in
    cache order, and with their number as count; nothing but the call
    record changes.  list_notes is search_notes with the empty query. *)
Theorem search_notes_result (w : World) (query : string) :
  auth_error w = None ->
  let hit n := query_matches w query n && negb (archived n) && negb (trashed n) in
  RestApi.search_notes query w
    = (Return
         (JObj [ ("notes", JArr (KeepApi.serialize <$> List.filter hit (nodes w)));
                 ("count", JNum (length (List.filter hit (nodes w)))) ]),
       called ([call_get_client; call_find query]
               ++ (call_serialize_note <$> Keep.select_from 0 hit (nodes w)))
         w) /\
  RestApi.list_notes w = RestApi.search_notes "" w.
Proof.
  intros Hauth hit. split; [| reflexivity].
  assert (Hhit : forall n,
            query_matches w query n
            && Keep.accepts (Some false) (archived n)
            && Keep.accepts (Some false) (trashed n) = hit n).
  { subst hit. intros n. cbn. destruct (archived n), (trashed n); reflexivity. }
  cbv beta iota delta [RestApi.search_notes RestApi.search_notes_try
    try_except bind KeepApi.get_client Keep.find record read ret raise].
  cbn [auth_error called]. rewrite Hauth.
  cbv beta iota. cbn [nodes query_matches called].
  rewrite (select_from_ext _ hit 0 (nodes w) Hhit).
  pose proof (mapM_serialize_select hit (nodes w) []
                (called [call_find query] (called [call_get_client] w)) eq_refl)
    as Hmap.
  cbn [length] in Hmap. rewrite Hmap. rewrite length_fmap. settle.
Qed.

Lemma search_notes_result_witness :
  RestApi.search_notes "milk" sample_world
    = (Return
         (JObj [ ("notes", JArr [KeepApi.serialize owned_note]);
                 ("count", JNum 1) ]),
       called [call_get_client; call_find "milk"; call_serialize_note 0]
         sample_world).
Proof.
  apply (search_notes_result sample_world "milk"). reflexivity.
Defined.

Lemma find_app_None {A} (f : A -> bool) (l l' : list A) :
  List.find f l = None -> List.find f (l ++ l') = List.find f l'.
Proof.
  induction l as [| a l IH]; cbn; [reflexivity |].
  destruct (f a); [discriminate | exact IH].
Qed.

(** With the label already in the account, create_note leaves the
    account's labels alone, however the request ends. *)
Lemma create_note_reuses_label
  (w : World) (req : RestApi.NoteCreateRequest) (l : Label) :
  List.find (fun l => String.eqb (label_name l) "keep-mcp") (account_labels w)
    = Some l ->
  account_labels (snd (RestApi.create_note req w)) = account_labels w.
Proof.
  intros Hfind. run. destruct (auth_error w); cbn; [reflexivity |].
  rewrite Hfind. cbn. unfold assign. cbn.
  rewrite list_lookup_middle by reflexivity. cbn.
  destruct (sync_error w); cbn; [reflexivity |].
  rewrite list_lookup_insert_eq by (rewrite length_app; cbn; lia).
  reflexivity.
Qed.

(** C4: with the session established and the sync succeeding, create_note
    answers with the serialization of the new note, which carries a label
    named "keep-mcp"; that label is the account's existing one when the
    look-up finds it and a newly created one only otherwise, so label
    names that were unique stay unique and a second create adds no label;
    the sync is issued after the label is attached and before the note is
    serialized, and the remote account then holds the labelled note. *)
Theorem create_note_labelled (w : World) (req : RestApi.NoteCreateRequest) :
  auth_error w = None ->
  sync_error w = None ->
  exists (label : Label) (w' : World) (cs : list Call),
    let n' :=
      mkNote ("gen." +:+ string_of_nat (entropy w))
        (RestApi.create_title req) (RestApi.create_text req)
        false None false false false [label] in
    RestApi.create_note req w = (Return (KeepApi.serialize n'), w') /\
    label_name label = "keep-mcp" /\
    nodes w' = nodes w ++ [n'] /\
    label ∈ account_labels w' /\
    server_nodes w' = nodes w' /\
    server_labels w' = account_labels w' /\
    calls w' = calls w ++ cs ++ [call_labels_add (length (nodes w)); call_sync;
                                 call_serialize_note (length (nodes w))] /\
    match List.find (fun l => String.eqb (label_name l) "keep-mcp")
            (account_labels w) with
    | Some l => label = l /\ account_labels w' = account_labels w
    | None => account_labels w' = account_labels w ++ [label]
    end /\
    (NoDup (label_name <$> account_labels w) ->
     NoDup (label_name <$> account_labels w')) /\
    (forall req2,
       account_labels (snd (RestApi.create_note req2 w')) = account_labels w').
Proof.
  intros Hauth Hsync.
  destruct (List.find (fun l => String.eqb (label_name l) "keep-mcp")
              (account_labels w)) as [l |] eqn:Hfind.
  - pose proof (List.find_some _ _ Hfind) as [Hin Hname].
    apply String.eqb_eq in Hname. apply list_elem_of_In in Hin.
    exists l. eexists. exists [call_get_client; call_createNote; call_findLabel "keep-mcp"].
    cbv zeta. split.
    { run. rewrite Hauth. cbn. rewrite Hfind. cbn. unfold assign. cbn.
      rewrite list_lookup_middle by reflexivity. cbn. rewrite Hsync. cbn.
      rewrite list_lookup_insert_eq by (rewrite length_app; cbn; lia).
      cbn. reflexivity. }
    cbn. repeat split; auto.
    + replace (length (nodes w)) with (length (nodes w) + 0) at 1 by lia.
      rewrite insert_app_r. reflexivity.
    + rewrite <- !app_assoc. reflexivity.
    + intros req2.
      match goal with
      | |- account_labels (snd (RestApi.create_note _ ?W)) = _ =>
          exact (create_note_reuses_label W req2 l Hfind)
      end.
  - pose proof (List.find_none _ _ Hfind) as Hnone.
    exists (mkLabel ("gen." +:+ string_of_nat (S (entropy w))) "keep-mcp").
    eexists.
    exists [call_get_client; call_createNote; call_findLabel "keep-mcp";
            call_createLabel "keep-mcp"].
    cbv zeta. split.
    { run. rewrite Hauth. cbn. rewrite Hfind. cbn. unfold assign. cbn.
      rewrite list_lookup_middle by reflexivity. cbn. rewrite Hsync. cbn.
      rewrite list_lookup_insert_eq by (rewrite length_app; cbn; lia).
      cbn. reflexivity. }
    cbn. repeat split; auto.
    + replace (length (nodes w)) with (length (nodes w) + 0) at 1 by lia.
      rewrite insert_app_r. reflexivity.
    + apply elem_of_app. right. apply list_elem_of_singleton. reflexivity.
    + rewrite <- !app_assoc. reflexivity.
    + intros Hnd. rewrite fmap_app. apply NoDup_app. split; [exact Hnd |].
      split; [| apply NoDup_singleton].
      intros x Hx Hx'. cbn in Hx'. apply list_elem_of_singleton in Hx'. subst x.
      apply list_elem_of_fmap in Hx as (l' & Hl' & Hin').
      apply list_elem_of_In in Hin'. specialize (Hnone l' Hin').
      apply String.eqb_neq in Hnone. congruence.
    + intros req2.
      match goal with
      | |- account_labels (snd (RestApi.create_note _ ?W)) = _ =>
          refine (create_note_reuses_label W req2
                    (mkLabel ("gen." +:+ string_of_nat (S (entropy w)))
                       "keep-mcp") _)
      end.
      cbn. rewrite (find_app_None _ _ _ Hfind). reflexivity.
Qed.

Lemma create_note_labelled_witness :
  exists (label : Label) (w' : World),
    RestApi.create_note (RestApi.mkNoteCreateRequest (Some "todo") None)
      empty_world
      = (Return (KeepApi.serialize
                   (mkNote "gen.0" (Some "todo") None false None
                      false false false [label])),
         w') /\
    label_name label = "keep-mcp" /\
    account_labels w' = [label].
Proof.
  destruct (create_note_labelled empty_world
              (RestApi.mkNoteCreateRequest (Some "todo") None)
              eq_refl eq_refl)
    as (label & w' & cs & Hrun & Hname & _ & _ & _ & _ & _ & Hlabels & _).
  exists label, w'. split; [exact Hrun |]. split; [exact Hname |].
  exact Hlabels.
Defined.

(** Two creates in an account that has no label yet: one label is made,
    both notes carry it. *)
Example create_twice :
  let w1 := snd (RestApi.create_note
                   (RestApi.mkNoteCreateRequest (Some "one") None)
                   empty_world) in
  let w2 := snd (RestApi.create_note
                   (RestApi.mkNoteCreateRequest (Some "two") None) w1) in
  account_labels w2 = [mkLabel "gen.1" "keep-mcp"] /\
  labels <$> nodes w2
    = [[mkLabel "gen.1" "keep-mcp"]; [mkLabel "gen.1" "keep-mcp"]] /\
  server_nodes w2 = nodes w2.
Proof. vm_compute. split; [| split]; reflexivity. Qed.

(** * Further properties of the handlers *)

(** Rewriting with what is known of the cache until nothing moves. *)
Ltac step_cache Hn Hlt :=
  repeat (progress
    (cbn; rewrite ?Hn, ?list_insert_insert_eq;
     rewrite ?list_lookup_insert_eq by (rewrite ?length_insert; exact Hlt))).

(** What update_note assigns to a note. *)
Lemma update_note_run
  (w : World) (id : string) (upd : RestApi.NoteUpdateRequest)
  (r : ref) (n : Note) :
  auth_error w = None ->
  cached w id r n ->
  KeepApi.can_modify (UNSAFE_MODE w) n = true ->
  let n' :=
    mkNote (note_id n)
      (match RestApi.update_title upd with Some t => Some t | None => title n end)
      (match RestApi.update_text upd with Some t => Some t | None => text n end)
      (pinned n) (color n) (archived n) (trashed n) (deleted n) (labels n) in
  RestApi.update_note id upd w
    = match sync_error w with
      | None =>
          (Return (KeepApi.serialize n'),
           called [call_get_client; call_get id; call_can_modify_note r;
                   call_sync; call_serialize_note r]
             (push_to_server (set_nodes (<[r := n']> (nodes w)) w)))
      | Some m =>
          (Raise (HTTPException 500 m),
           called [call_get_client; call_get id; call_can_modify_note r;
                   call_sync]
             (set_nodes (<[r := n']> (nodes w)) w))
      end.
Proof.
  intros Hauth Hc Hgate n'.
  pose proof (cached_lookup _ _ _ _ Hc) as Hn.
  pose proof (lookup_lt_Some _ _ _ Hn) as Hlt.
  unfold cached in Hc. subst n'.
  destruct upd as [[t |] [x |]];
    cbn [RestApi.update_title RestApi.update_text];
    try rewrite note_eta, (list_insert_id _ _ _ Hn);
    run; unfold assign;
    rewrite Hauth; cbn; rewrite Hc; cbn; rewrite Hn, Hgate;
    step_cache Hn Hlt;
    destruct (sync_error w); step_cache Hn Hlt; settle.
Qed.

Lemma delete_note_run (w : World) (id : string) (r : ref) (n : Note) :
  auth_error w = None ->
  cached w id r n ->
  KeepApi.can_modify (UNSAFE_MODE w) n = true ->
  RestApi.delete_note id w
    = match sync_error w with
      | None =>
          (Return (JObj [ ("message",
                           JStr ("Note " +:+ id +:+ " marked for deletion"));
                          ("status", JStr "success") ]),
           called [call_get_client; call_get id; call_can_modify_note r;
                   call_delete r; call_sync]
             (push_to_server
                (set_nodes (<[r := with_deleted true n]> (nodes w)) w)))
      | Some m =>
          (Raise (HTTPException 500 m),
           called [call_get_client; call_get id; call_can_modify_note r;
                   call_delete r; call_sync]
             (set_nodes (<[r := with_deleted true n]> (nodes w)) w))
      end.
Proof.
  intros Hauth Hc Hgate.
  pose proof (cached_lookup _ _ _ _ Hc) as Hn.
  pose proof (lookup_lt_Some _ _ _ Hn) as Hlt.
  unfold cached in Hc.
  run; unfold assign; rewrite Hauth; cbn; rewrite Hc; cbn;
    rewrite Hn, Hgate; step_cache Hn Hlt;
    destruct (sync_error w); step_cache Hn Hlt; settle.
Qed.

(** X1: deleting a cached note the gate admits, with session and sync
    succeeding, sets the note's deletion mark and nothing else of it,
    leaves every other note alone, issues a sync after the mark, and
    answers with a message and a status, not with the note. *)
Theorem delete_note_marks_and_syncs
  (w : World) (id : string) (r : ref) (n : Note) :
  auth_error w = None ->
  sync_error w = None ->
  cached w id r n ->
  KeepApi.can_modify (UNSAFE_MODE w) n = true ->
  RestApi.delete_note id w
    = (Return (JObj [ ("message",
                       JStr ("Note " +:+ id +:+ " marked for deletion"));
                      ("status", JStr "success") ]),
       called [call_get_client; call_get id; call_can_modify_note r;
               call_delete r; call_sync]
         (push_to_server
            (set_nodes
               (<[r := mkNote (note_id n) (title n) (text n) (pinned n)
                         (color n) (archived n) (trashed n) true (labels n)]>
                  (nodes w))
               w))).
Proof.
  intros Hauth Hsync Hc Hgate.
  rewrite (delete_note_run w id r n Hauth Hc Hgate), Hsync. reflexivity.
Qed.

Lemma delete_note_marks_and_syncs_witness :
  RestApi.delete_note "a1" sample_world
    = (Return (JObj [ ("message", JStr "Note a1 marked for deletion");
                      ("status", JStr "success") ]),
       called [call_get_client; call_get "a1"; call_can_modify_note 0;
               call_delete 0; call_sync]
         (push_to_server
            (set_nodes
               [mkNote "a1" (Some "groceries") (Some "milk") false None
                  false false true [mkLabel "L1" "keep-mcp"];
                foreign_note; archived_note]
               sample_world))).
Proof.
  apply (delete_note_marks_and_syncs sample_world "a1" 0 owned_note);
    reflexivity.
Defined.

Lemma without_session_run
  (w : World) (m id query : string)
  (req : RestApi.NoteCreateRequest) (upd : RestApi.NoteUpdateRequest) :
  auth_error w = Some m ->
  let failed := (Raise (HTTPException 500 m), called [call_get_client] w) in
  RestApi.search_notes query w = failed /\
  RestApi.get_note id w = failed /\
  RestApi.create_note req w = failed /\
  RestApi.update_note id upd w = failed /\
  RestApi.delete_note id w = failed.
Proof.
  intros Hauth failed. subst failed.
  repeat split; run; rewrite Hauth; reflexivity.
Qed.

(** X2: when the session cannot be established, each of the six data
    operations raises HTTPException 500 carrying the provider's message,
    having called nothing but get_client: no look-up, no assignment, no
    sync. *)
Theorem data_operations_without_session
  (w : World) (m id query : string)
  (req : RestApi.NoteCreateRequest) (upd : RestApi.NoteUpdateRequest) :
  auth_error w = Some m ->
  let failed := (Raise (HTTPException 500 m), called [call_get_client] w) in
  RestApi.search_notes query w = failed /\
  RestApi.list_notes w = failed /\
  RestApi.get_note id w = failed /\
  RestApi.create_note req w = failed /\
  RestApi.update_note id upd w = failed /\
  RestApi.delete_note id w = failed.
Proof.
  intros Hauth failed. subst failed. unfold RestApi.list_notes.
  repeat split; run; rewrite Hauth; reflexivity.
Qed.

Lemma data_operations_without_session_witness :
  RestApi.create_note (RestApi.mkNoteCreateRequest (Some "t") None)
    offline_world
    = (Raise (HTTPException 500 "BadAuthentication"),
       called [call_get_client] offline_world).
Proof.
  apply (data_operations_without_session offline_world "BadAuthentication"
           "a1" "" (RestApi.mkNoteCreateRequest (Some "t") None)
           (RestApi.mkNoteUpdateRequest None None)).
  reflexivity.
Defined.

(** The handlers on an identifier [keep.get] does not find. *)
Lemma not_found_run
  (w : World) (id : string) (upd : RestApi.NoteUpdateRequest) :
  auth_error w = None ->
  list_find (fun m => note_id m = id) (nodes w) = None ->
  let answer :=
    (Raise (HTTPException 404 ("Note with ID " +:+ id +:+ " not found")),
     called [call_get_client; call_get id] w) in
  RestApi.get_note id w = answer /\
  RestApi.update_note id upd w = answer /\
  RestApi.delete_note id w = answer.
Proof.
  intros Hauth Hfind answer. subst answer.
  repeat split; run; rewrite Hauth; cbn; rewrite Hfind; cbn; settle.
Qed.

(** update_note and delete_note on a note the gate rejects. *)
Lemma forbidden_run
  (w : World) (id : string) (upd : RestApi.NoteUpdateRequest)
  (r : ref) (n : Note) :
  auth_error w = None ->
  cached w id r n ->
  KeepApi.can_modify (UNSAFE_MODE w) n = false ->
  let answer :=
    (Raise (RestApi.forbidden id),
     called [call_get_client; call_get id; call_can_modify_note r] w) in
  RestApi.update_note id upd w = answer /\
  RestApi.delete_note id w = answer.
Proof.
  intros Hauth Hc Hgate answer. subst answer.
  pose proof (cached_lookup _ _ _ _ Hc) as Hn. unfold cached in Hc.
  split; run; rewrite Hauth; cbn; rewrite Hc; cbn; rewrite Hn, Hgate;
    cbn; settle.
Qed.

Lemma get_note_run (w : World) (id : string) (r : ref) (n : Note) :
  auth_error w = None ->
  cached w id r n ->
  RestApi.get_note id w
    = (Return (KeepApi.serialize n),
       called [call_get_client; call_get id; call_serialize_note r] w).
Proof.
  intros Hauth Hc. pose proof (cached_lookup _ _ _ _ Hc) as Hn.
  unfold cached in Hc.
  run. rewrite Hauth. cbn. rewrite Hc. cbn. rewrite Hn. cbn. settle.
Qed.

Lemma search_notes_run (w : World) (query : string) :
  auth_error w = None ->
  let hit n := query_matches w query n && negb (archived n) && negb (trashed n) in
  RestApi.search_notes query w
    = (Return
         (JObj [ ("notes", JArr (KeepApi.serialize <$> List.filter hit (nodes w)));
                 ("count", JNum (length (List.filter hit (nodes w)))) ]),
       called ([call_get_client; call_find query]
               ++ (call_serialize_note <$> Keep.select_from 0 hit (nodes w)))
         w).
Proof.
  intros Hauth hit.
  assert (Hhit : forall n,
            query_matches w query n
            && Keep.accepts (Some false) (archived n)
            && Keep.accepts (Some false) (trashed n) = hit n).
  { subst hit. intros n. cbn. destruct (archived n), (trashed n); reflexivity. }
  cbv beta iota delta [RestApi.search_notes RestApi.search_notes_try
    try_except bind KeepApi.get_client Keep.find record read ret raise].
  cbn [auth_error called]. rewrite Hauth.
  cbv beta iota. cbn [nodes query_matches called].
  rewrite (select_from_ext _ hit 0 (nodes w) Hhit).
  pose proof (mapM_serialize_select hit (nodes w) []
                (called [call_find query] (called [call_get_client] w)) eq_refl)
    as Hmap.
  cbn [length] in Hmap. rewrite Hmap. rewrite length_fmap. settle.
Qed.

(** What create_note leaves behind, whether or not the sync succeeds. *)
Lemma create_note_run (w : World) (req : RestApi.NoteCreateRequest) :
  auth_error w = None ->
  exists (w' : World),
    let label :=
      match List.find (fun l => String.eqb (label_name l) "keep-mcp")
              (account_labels w) with
      | Some l => l
      | None => mkLabel ("gen." +:+ string_of_nat (S (entropy w))) "keep-mcp"
      end in
    let n' :=
      mkNote ("gen." +:+ string_of_nat (entropy w))
        (RestApi.create_title req) (RestApi.create_text req)
        false None false false false [label] in
    RestApi.create_note req w
      = (match sync_error w with
         | None => Return (KeepApi.serialize n')
         | Some m => Raise (HTTPException 500 m)
         end, w') /\
    nodes w' = nodes w ++ [n'] /\
    account_labels w'
      = match List.find (fun l => String.eqb (label_name l) "keep-mcp")
                (account_labels w) with
        | Some _ => account_labels w
        | None => account_labels w ++ [label]
        end /\
    server_nodes w'
      = match sync_error w with None => nodes w' | Some _ => server_nodes w end /\
    server_labels w'
      = match sync_error w with
        | None => account_labels w'
        | Some _ => server_labels w
        end /\
    UNSAFE_MODE w' = UNSAFE_MODE w /\
    auth_error w' = auth_error w /\
    sync_error w' = sync_error w.
Proof.
  intros Hauth. cbv zeta.
  assert (Hins : forall x y : Note,
            <[length (nodes w) := y]> (nodes w ++ [x]) = nodes w ++ [y]).
  { intros x y.
    replace (length (nodes w)) with (length (nodes w) + 0) at 1 by lia.
    rewrite insert_app_r. reflexivity. }
  destruct (List.find (fun l => String.eqb (label_name l) "keep-mcp")
              (account_labels w)) as [l |] eqn:Hfind;
    destruct (sync_error w) as [m |] eqn:Hsync;
    eexists;
    (split;
     [ run; rewrite Hauth; cbn; rewrite Hfind; cbn; unfold assign; cbn;
       rewrite list_lookup_middle by reflexivity; cbn;
       rewrite Hsync; cbn;
       rewrite ?list_lookup_insert_eq by (rewrite length_app; cbn; lia);
       cbn; reflexivity
     | cbn; rewrite ?Hins; repeat split; first [reflexivity | assumption] ]).
Qed.

(** The status FastAPI sends when the handler ended with [o]. *)
Lemma status_serve (h : M json) (w : World) (o : outcome json) (w' : World) :
  h w = (o, w') -> status (fst (RestApi.serve h w)) = status (respond o).
Proof. intros H. unfold RestApi.serve. rewrite H. reflexivity. Qed.

(** X3: the status of the reading routes, in every world.  get_note sends
    500 when the session cannot be established, else 404 when keep.get
    finds no note and 200 when it finds one: never 403.  search_notes and
    list_notes send 500 when the session cannot be established and 200
    otherwise: never 404 or 403. *)
Theorem read_routes_status (w : World) (id query : string) :
  status (fst (RestApi.serve (RestApi.get_note id) w))
    = match auth_error w with
      | Some _ => 500
      | None =>
          match list_find (fun m => note_id m = id) (nodes w) with
          | Some _ => 200
          | None => 404
          end
      end /\
  status (fst (RestApi.serve (RestApi.search_notes query) w))
    = match auth_error w with Some _ => 500 | None => 200 end /\
  status (fst (RestApi.serve RestApi.list_notes w))
    = match auth_error w with Some _ => 500 | None => 200 end.
Proof.
  destruct (auth_error w) as [m |] eqn:Hauth.
  - destruct (without_session_run w m id query
                (RestApi.mkNoteCreateRequest None None)
                (RestApi.mkNoteUpdateRequest None None) Hauth)
      as (Hs & Hg & _).
    destruct (without_session_run w m id ""
                (RestApi.mkNoteCreateRequest None None)
                (RestApi.mkNoteUpdateRequest None None) Hauth)
      as (Hl & _).
    unfold RestApi.list_notes.
    rewrite (status_serve _ _ _ _ Hg), (status_serve _ _ _ _ Hs),
      (status_serve _ _ _ _ Hl).
    repeat split; reflexivity.
  - split; [| split].
    + destruct (list_find (fun m => note_id m = id) (nodes w))
        as [[r n] |] eqn:Hfind.
      * rewrite (status_serve _ _ _ _ (get_note_run w id r n Hauth Hfind)).
        reflexivity.
      * destruct (not_found_run w id (RestApi.mkNoteUpdateRequest None None)
                    Hauth Hfind) as (Hg & _).
        rewrite (status_serve _ _ _ _ Hg). reflexivity.
    + rewrite (status_serve _ _ _ _ (search_notes_run w query Hauth)).
      reflexivity.
    + unfold RestApi.list_notes.
      rewrite (status_serve _ _ _ _ (search_notes_run w "" Hauth)).
      reflexivity.
Qed.

(** X4: the status of the writing routes, in every world.  update_note and
    delete_note send 500 without a session, else 404 when keep.get finds no
    note, else 403 when the gate rejects the note, else 500 when the sync
    fails and 200 when it succeeds.  create_note sends 200 when session and
    sync succeed and 500 otherwise: never 404 or 403. *)
Theorem write_routes_status
  (w : World) (id : string)
  (req : RestApi.NoteCreateRequest) (upd : RestApi.NoteUpdateRequest) :
  let gated :=
    match auth_error w with
    | Some _ => 500
    | None =>
        match list_find (fun m => note_id m = id) (nodes w) with
        | None => 404
        | Some (_, n) =>
            if KeepApi.can_modify (UNSAFE_MODE w) n
            then match sync_error w with Some _ => 500 | None => 200 end
            else 403
        end
    end in
  status (fst (RestApi.serve (RestApi.update_note id upd) w)) = gated /\
  status (fst (RestApi.serve (RestApi.delete_note id) w)) = gated /\
  status (fst (RestApi.serve (RestApi.create_note req) w))
    = match auth_error w, sync_error w with
      | None, None => 200
      | _, _ => 500
      end.
Proof.
  cbv zeta. destruct (auth_error w) as [m |] eqn:Hauth.
  - destruct (without_session_run w m id "" req upd Hauth)
      as (_ & _ & Hc & Hu & Hd).
    rewrite (status_serve _ _ _ _ Hc), (status_serve _ _ _ _ Hu),
      (status_serve _ _ _ _ Hd).
    repeat split; reflexivity.
  - split; [| split].
    + destruct (list_find (fun m => note_id m = id) (nodes w))
        as [[r n] |] eqn:Hfind.
      * destruct (KeepApi.can_modify (UNSAFE_MODE w) n) eqn:Hgate.
        -- pose proof (update_note_run w id upd r n Hauth Hfind Hgate) as Hu.
           cbv zeta in Hu.
           destruct (sync_error w); rewrite (status_serve _ _ _ _ Hu);
             reflexivity.
        -- destruct (forbidden_run w id upd r n Hauth Hfind Hgate) as (Hu & _).
           rewrite (status_serve _ _ _ _ Hu). reflexivity.
      * destruct (not_found_run w id upd Hauth Hfind) as (_ & Hu & _).
        rewrite (status_serve _ _ _ _ Hu). reflexivity.
    + destruct (list_find (fun m => note_id m = id) (nodes w))
        as [[r n] |] eqn:Hfind.
      * destruct (KeepApi.can_modify (UNSAFE_MODE w) n) eqn:Hgate.
        -- pose proof (delete_note_run w id r n Hauth Hfind Hgate) as Hd.
           destruct (sync_error w); rewrite (status_serve _ _ _ _ Hd);
             reflexivity.
        -- destruct (forbidden_run w id upd r n Hauth Hfind Hgate) as (_ & Hd).
           rewrite (status_serve _ _ _ _ Hd). reflexivity.
      * destruct (not_found_run w id upd Hauth Hfind) as (_ & _ & Hd).
        rewrite (status_serve _ _ _ _ Hd). reflexivity.
    + destruct (create_note_run w req Hauth) as (w' & Hrun & _).
      cbv zeta in Hrun. rewrite (status_serve _ _ _ _ Hrun).
      destruct (sync_error w); reflexivity.
Qed.

(** X5: when the sync fails, update_note and delete_note answer with
    HTTPException 500 carrying the sync's message, but the assignment made
    before the sync stays in the session cache; the remote account is as
    it was. *)
Theorem failed_sync_keeps_local_write
  (w : World) (id m : string) (upd : RestApi.NoteUpdateRequest)
  (r : ref) (n : Note) :
  auth_error w = None ->
  sync_error w = Some m ->
  cached w id r n ->
  KeepApi.can_modify (UNSAFE_MODE w) n = true ->
  RestApi.update_note id upd w
    = (Raise (HTTPException 500 m),
       called [call_get_client; call_get id; call_can_modify_note r; call_sync]
         (set_nodes
            (<[r := mkNote (note_id n)
                      (match RestApi.update_title upd with
                       | Some t => Some t
                       | None => title n
                       end)
                      (match RestApi.update_text upd with
                       | Some t => Some t
                       | None => text n
                       end)
                      (pinned n) (color n) (archived n) (trashed n)
                      (deleted n) (labels n)]>
               (nodes w))
            w)) /\
  RestApi.delete_note id w
    = (Raise (HTTPException 500 m),
       called [call_get_client; call_get id; call_can_modify_note r;
               call_delete r; call_sync]
         (set_nodes
            (<[r := mkNote (note_id n) (title n) (text n) (pinned n)
                      (color n) (archived n) (trashed n) true (labels n)]>
               (nodes w))
            w)) /\
  server_nodes (snd (RestApi.update_note id upd w)) = server_nodes w /\
  server_nodes (snd (RestApi.delete_note id w)) = server_nodes w.
Proof.
  intros Hauth Hsync Hc Hgate.
  pose proof (update_note_run w id upd r n Hauth Hc Hgate) as Hu.
  pose proof (delete_note_run w id r n Hauth Hc Hgate) as Hd.
  cbv zeta in Hu. rewrite Hsync in Hu, Hd. rewrite Hu, Hd.
  repeat split; reflexivity.
Qed.

Lemma failed_sync_keeps_local_write_witness :
  nodes (snd (RestApi.update_note "b2"
                (RestApi.mkNoteUpdateRequest (Some "t") None) flaky_world))
    = [owned_note;
       mkNote "b2" (Some "t") None true (Some "RED") false false false
         [mkLabel "L2" "work"];
       archived_note] /\
  server_nodes (snd (RestApi.update_note "b2"
                       (RestApi.mkNoteUpdateRequest (Some "t") None)
                       flaky_world))
    = [].
Proof.
  destruct (failed_sync_keeps_local_write flaky_world "b2" "upstream timeout"
              (RestApi.mkNoteUpdateRequest (Some "t") None) 1 foreign_note
              eq_refl eq_refl eq_refl eq_refl)
    as (Hu & _ & Hs & _).
  split; [rewrite Hu; reflexivity | exact Hs].
Defined.

(** X6: when the sync fails, create_note answers with HTTPException 500
    carrying the sync's message, yet the new note, with the ownership
    label attached, is in the session cache, and a label created for it
    is in the account's labels; the remote account is as it was. *)
Theorem failed_sync_keeps_created_note
  (w : World) (m : string) (req : RestApi.NoteCreateRequest) :
  auth_error w = None ->
  sync_error w = Some m ->
  exists (label : Label) (w' : World),
    RestApi.create_note req w = (Raise (HTTPException 500 m), w') /\
    nodes w'
      = nodes w ++
        [mkNote ("gen." +:+ string_of_nat (entropy w))
           (RestApi.create_title req) (RestApi.create_text req)
           false None false false false [label]] /\
    label_name label = "keep-mcp" /\
    label ∈ account_labels w' /\
    server_nodes w' = server_nodes w /\
    server_labels w' = server_labels w.
Proof.
  intros Hauth Hsync.
  destruct (create_note_run w req Hauth)
    as (w' & Hrun & Hnodes & Hlabels & Hsn & Hsl & _).
  cbv zeta in Hrun, Hnodes, Hlabels. rewrite Hsync in Hrun, Hsn, Hsl.
  destruct (List.find (fun l => String.eqb (label_name l) "keep-mcp")
              (account_labels w)) as [l |] eqn:Hfind.
  - pose proof (List.find_some _ _ Hfind) as [Hin Hname].
    apply String.eqb_eq in Hname. apply list_elem_of_In in Hin.
    exists l, w'. rewrite Hlabels. repeat split; auto.
  - exists (mkLabel ("gen." +:+ string_of_nat (S (entropy w))) "keep-mcp"), w'.
    rewrite Hlabels. repeat split; auto.
    apply elem_of_app. right. apply list_elem_of_singleton. reflexivity.
Qed.

Lemma failed_sync_keeps_created_note_witness :
  exists (label : Label) (w' : World),
    RestApi.create_note (RestApi.mkNoteCreateRequest (Some "t") None)
      flaky_world
      = (Raise (HTTPException 500 "upstream timeout"), w') /\
    length (nodes w') = 4 /\
    server_nodes w' = [].
Proof.
  destruct (failed_sync_keeps_created_note flaky_world "upstream timeout"
              (RestApi.mkNoteCreateRequest (Some "t") None) eq_refl eq_refl)
    as (label & w' & Hrun & Hnodes & _ & _ & Hs & _).
  exists label, w'. split; [exact Hrun |]. split; [| exact Hs].
  rewrite Hnodes. reflexivity.
Defined.

Lemma confined_same (id : string) (w w' : World) :
  nodes w' = nodes w -> account_labels w' = account_labels w ->
  confined_to id w w'.
Proof.
  intros Hn Hl. unfold confined_to. rewrite Hn, Hl.
  split; [reflexivity |]. split; [reflexivity |].
  intros r n Hr. exists n. repeat split; auto.
  intros [H | [H | H]]; congruence.
Qed.

Lemma confined_insert (id : string) (w w' : World) (r0 : ref) (n0 m : Note) :
  cached w id r0 n0 ->
  nodes w' = <[r0 := m]> (nodes w) ->
  account_labels w' = account_labels w ->
  note_id m = note_id n0 -> pinned m = pinned n0 -> color m = color n0 ->
  archived m = archived n0 -> trashed m = trashed n0 ->
  labels m = labels n0 ->
  confined_to id w w'.
Proof.
  intros Hc Hn Hl Hid Hp Hco Ha Ht Hla.
  pose proof (cached_lookup _ _ _ _ Hc) as Hn0.
  pose proof (lookup_lt_Some _ _ _ Hn0) as Hlt.
  unfold confined_to. rewrite Hn, Hl, length_insert.
  split; [reflexivity |]. split; [reflexivity |].
  intros r n Hr. destruct (decide (r0 = r)) as [-> | Hne].
  - exists m. rewrite list_lookup_insert_eq by exact Hlt.
    assert (n0 = n) by congruence. subst n0.
    repeat split; auto.
  - exists n. rewrite list_lookup_insert_ne by exact Hne.
    repeat split; auto. intros [H | [H | H]]; congruence.
Qed.

(** The case where the cache after the request is the cache before it. *)
Ltac untouched :=
  split; [apply confined_same; reflexivity |];
  split; [apply confined_same; reflexivity |];
  split; intros r n n' Hr Hr'; cbn in Hr';
  assert (n' = n) by congruence; subst n'; auto.

(** X7: whatever the request and however it ends, update_note and
    delete_note add no note, remove none, leave the account's labels as
    they are, and leave every note but the one keep.get hands out for the
    identifier exactly as it was; of that note the identifier, pinned,
    color, archived, trashed and the labels (so the ownership marker) are
    kept.  update_note no more touches the deletion mark than delete_note
    touches title or text. *)
Theorem writes_confined_to_note
  (w : World) (id : string) (upd : RestApi.NoteUpdateRequest) :
  confined_to id w (snd (RestApi.update_note id upd w)) /\
  confined_to id w (snd (RestApi.delete_note id w)) /\
  (forall r n n',
     nodes w !! r = Some n ->
     nodes (snd (RestApi.update_note id upd w)) !! r = Some n' ->
     deleted n' = deleted n) /\
  (forall r n n',
     nodes w !! r = Some n ->
     nodes (snd (RestApi.delete_note id w)) !! r = Some n' ->
     title n' = title n /\ text n' = text n).
Proof.
  destruct (auth_error w) as [m |] eqn:Hauth.
  { destruct (without_session_run w m id ""
                (RestApi.mkNoteCreateRequest None None) upd Hauth)
      as (_ & _ & _ & Hu & Hd).
    rewrite Hu, Hd. cbn [snd].
    untouched. }
  destruct (list_find (fun m => note_id m = id) (nodes w))
    as [[r0 n0] |] eqn:Hfind.
  2: { destruct (not_found_run w id upd Hauth Hfind) as (_ & Hu & Hd).
       rewrite Hu, Hd. cbn [snd].
       untouched. }
  destruct (KeepApi.can_modify (UNSAFE_MODE w) n0) eqn:Hgate.
  2: { destruct (forbidden_run w id upd r0 n0 Hauth Hfind Hgate) as (Hu & Hd).
       rewrite Hu, Hd. cbn [snd].
       untouched. }
  pose proof (update_note_run w id upd r0 n0 Hauth Hfind Hgate) as Hu.
  pose proof (delete_note_run w id r0 n0 Hauth Hfind Hgate) as Hd.
  pose proof (cached_lookup _ _ _ _ Hfind) as Hn0.
  pose proof (lookup_lt_Some _ _ _ Hn0) as Hlt.
  cbv zeta in Hu. rewrite Hu, Hd.
  split; [| split; [| split]].
  - destruct (sync_error w); cbn [snd];
      (eapply (confined_insert id w _ r0 n0);
       [exact Hfind | reflexivity | reflexivity | reflexivity ..]).
  - destruct (sync_error w); cbn [snd];
      (eapply (confined_insert id w _ r0 n0);
       [exact Hfind | reflexivity | reflexivity | reflexivity ..]).
  - intros r n n' Hr Hr'.
    assert (Hr'' : <[r0 := mkNote (note_id n0)
                       (match RestApi.update_title upd with
                        | Some t => Some t | None => title n0 end)
                       (match RestApi.update_text upd with
                        | Some t => Some t | None => text n0 end)
                       (pinned n0) (color n0) (archived n0) (trashed n0)
                       (deleted n0) (labels n0)]> (nodes w) !! r = Some n')
      by (destruct (sync_error w); exact Hr').
    destruct (decide (r0 = r)) as [-> | Hne].
    + rewrite list_lookup_insert_eq in Hr'' by exact Hlt.
      assert (n0 = n) by congruence. subst n0.
      inversion Hr''. reflexivity.
    + rewrite list_lookup_insert_ne in Hr'' by exact Hne. congruence.
  - intros r n n' Hr Hr'.
    assert (Hr'' : <[r0 := with_deleted true n0]> (nodes w) !! r = Some n')
      by (destruct (sync_error w); exact Hr').
    destruct (decide (r0 = r)) as [-> | Hne].
    + rewrite list_lookup_insert_eq in Hr'' by exact Hlt.
      assert (n0 = n) by congruence. subst n0.
      inversion Hr''. split; reflexivity.
    + rewrite list_lookup_insert_ne in Hr'' by exact Hne.
      assert (n' = n) by congruence. subst n'. split; reflexivity.
Qed.

Lemma writes_confined_to_note_witness :
  exists n',
    nodes (snd (RestApi.update_note "a1"
                  (RestApi.mkNoteUpdateRequest (Some "t") None)
                  sample_world)) !! 1 = Some n' /\
    labels n' = labels foreign_note.
Proof.
  destruct (writes_confined_to_note sample_world "a1"
              (RestApi.mkNoteUpdateRequest (Some "t") None))
    as ((_ & _ & Hnotes) & _).
  destruct (Hnotes 1 foreign_note eq_refl)
    as (n' & Hn' & _ & _ & _ & _ & _ & Hlabels & _).
  exists n'. split; [exact Hn' | exact Hlabels].
Defined.

Lemma forallb_read_serialize (rs : list ref) :
  forallb read_call (call_serialize_note <$> rs) = true.
Proof. induction rs as [| r rs IH]; [reflexivity | exact IH]. Qed.

(** X8: the reading routes write nothing.  In every world get_note,
    search_notes and list_notes leave the cache, the account's labels and
    the remote account as they were; the calls they make are get_client,
    the look-up and the serializer only, so no sync is issued and the gate
    is not asked. *)
Theorem read_routes_write_nothing (w : World) (id query : string) :
  (exists cs, snd (RestApi.get_note id w) = called cs w /\
              forallb read_call cs = true) /\
  (exists cs, snd (RestApi.search_notes query w) = called cs w /\
              forallb read_call cs = true) /\
  (exists cs, snd (RestApi.list_notes w) = called cs w /\
              forallb read_call cs = true).
Proof.
  assert (Hsearch : forall q,
            exists cs, snd (RestApi.search_notes q w) = called cs w /\
                       forallb read_call cs = true).
  { intros q. destruct (auth_error w) as [m |] eqn:Hauth.
    - destruct (without_session_run w m id q
                  (RestApi.mkNoteCreateRequest None None)
                  (RestApi.mkNoteUpdateRequest None None) Hauth)
        as (Hs & _).
      rewrite Hs. exists [call_get_client]. split; reflexivity.
    - rewrite (search_notes_run w q Hauth). eexists.
      split; [reflexivity |].
      rewrite forallb_app, forallb_read_serialize. reflexivity. }
  split; [| split; [apply Hsearch | apply (Hsearch "")]].
  destruct (auth_error w) as [m |] eqn:Hauth.
  - destruct (without_session_run w m id query
                (RestApi.mkNoteCreateRequest None None)
                (RestApi.mkNoteUpdateRequest None None) Hauth)
      as (_ & Hg & _).
    rewrite Hg. exists [call_get_client]. split; reflexivity.
  - destruct (list_find (fun m => note_id m = id) (nodes w))
      as [[r n] |] eqn:Hfind.
    + rewrite (get_note_run w id r n Hauth Hfind). eexists.
      split; reflexivity.
    + destruct (not_found_run w id (RestApi.mkNoteUpdateRequest None None)
                  Hauth Hfind) as (Hg & _).
      rewrite Hg. eexists. split; reflexivity.
Qed.

(** keep.get after an assignment to the note it handed out. *)
Lemma cached_after_insert (w w' : World) (id : string) (r : ref) (n m : Note) :
  cached w id r n ->
  note_id m = id ->
  nodes w' = <[r := m]> (nodes w) ->
  cached w' id r m.
Proof.
  intros Hc Hid Hn. unfold cached in *. rewrite Hn.
  apply list_find_Some in Hc as (Hr & _ & Hleast).
  apply list_find_insert_Some. right. left.
  repeat split; auto. eapply lookup_lt_Some. exact Hr.
Qed.

(** keep.get of an identifier that only the newest note has. *)
Lemma cached_after_append (w w' : World) (id : string) (m : Note) :
  absent w id ->
  note_id m = id ->
  nodes w' = nodes w ++ [m] ->
  cached w' id (length (nodes w)) m.
Proof.
  intros Habs Hid Hn. unfold cached. rewrite Hn.
  apply list_find_app_Some. right.
  split; [lia |]. split; [apply absent_find; exact Habs |].
  rewrite Nat.sub_diag. apply list_find_Some.
  repeat split; auto. intros j y _ Hj. lia.
Qed.

(** X9: a note just created can be fetched.  With the session established,
    the sync succeeding and the new identifier not yet in the cache,
    get_note of the identifier that create_note returned answers with the
    very record create_note answered with. *)
Theorem create_then_get (w : World) (req : RestApi.NoteCreateRequest) :
  auth_error w = None ->
  sync_error w = None ->
  absent w ("gen." +:+ string_of_nat (entropy w)) ->
  exists fields,
    fst (RestApi.create_note req w)
      = Return (JObj (("id", JStr ("gen." +:+ string_of_nat (entropy w)))
                      :: fields)) /\
    fst (RestApi.get_note ("gen." +:+ string_of_nat (entropy w))
           (snd (RestApi.create_note req w)))
      = fst (RestApi.create_note req w).
Proof.
  intros Hauth Hsync Habs.
  destruct (create_note_run w req Hauth)
    as (w' & Hrun & Hnodes & _ & _ & _ & _ & Hauth' & _).
  cbv zeta in Hrun, Hnodes. rewrite Hsync in Hrun. rewrite Hrun. cbn [fst snd].
  eexists. split; [reflexivity |].
  rewrite Hauth in Hauth'.
  match type of Hnodes with
  | _ = _ ++ [?m] =>
      pose proof (cached_after_append w w' _ m Habs eq_refl Hnodes) as Hc
  end.
  rewrite (get_note_run w' _ _ _ Hauth' Hc). reflexivity.
Qed.

Lemma create_then_get_witness :
  fst (RestApi.get_note "gen.7"
         (snd (RestApi.create_note
                 (RestApi.mkNoteCreateRequest (Some "todo") None)
                 sample_world)))
    = fst (RestApi.create_note
             (RestApi.mkNoteCreateRequest (Some "todo") None) sample_world).
Proof.
  destruct (create_then_get sample_world
              (RestApi.mkNoteCreateRequest (Some "todo") None)
              eq_refl eq_refl)
    as (fields & _ & Hget).
  - intros n Hn. cbn in Hn. rewrite !elem_of_cons, elem_of_nil in Hn.
    destruct Hn as [-> | [-> | [-> | []]]]; discriminate.
  - exact Hget.
Defined.

(** X10: a note created through create_note is the integration's own.
    With the session established, the sync succeeding and the new
    identifier not yet in the cache, update_note and delete_note on the
    created note pass the gate whatever the override flag, also with
    UNSAFE_MODE off: both answer 200, and the update answers with the
    created note's record carrying the supplied fields. *)
Theorem created_note_is_modifiable
  (w : World) (req : RestApi.NoteCreateRequest)
  (upd : RestApi.NoteUpdateRequest) :
  auth_error w = None ->
  sync_error w = None ->
  absent w ("gen." +:+ string_of_nat (entropy w)) ->
  let id := "gen." +:+ string_of_nat (entropy w) in
  let w' := snd (RestApi.create_note req w) in
  exists label,
    label_name label = "keep-mcp" /\
    fst (RestApi.update_note id upd w')
      = Return (KeepApi.serialize
                  (mkNote id
                     (match RestApi.update_title upd with
                      | Some t => Some t
                      | None => RestApi.create_title req
                      end)
                     (match RestApi.update_text upd with
                      | Some t => Some t
                      | None => RestApi.create_text req
                      end)
                     false None false false false [label])) /\
    status (fst (RestApi.serve (RestApi.update_note id upd) w')) = 200 /\
    status (fst (RestApi.serve (RestApi.delete_note id) w')) = 200.
Proof.
  intros Hauth Hsync Habs id w'.
  destruct (create_note_run w req Hauth)
    as (w1 & Hrun & Hnodes & _ & _ & _ & Hunsafe & Hauth' & Hsync').
  cbv zeta in Hrun, Hnodes.
  assert (Hw' : w' = w1) by (subst w'; rewrite Hrun; reflexivity).
  rewrite Hw'. clear Hw' w'.
  rewrite Hauth in Hauth'. rewrite Hsync in Hsync'.
  match type of Hnodes with
  | _ = _ ++ [?m] =>
      pose proof (cached_after_append w w1 _ m Habs eq_refl Hnodes) as Hc;
      assert (Hgate : KeepApi.can_modify (UNSAFE_MODE w1) m = true)
  end.
  { unfold KeepApi.can_modify, KeepApi.has_ownership_label,
      KeepApi.OWNERSHIP_LABEL.
    cbn [labels existsb].
    destruct (List.find _ (account_labels w)) as [l |] eqn:Hfind.
    - apply List.find_some in Hfind as [_ Hname]. rewrite Hname.
      apply orb_true_r.
    - cbn [label_name]. rewrite String.eqb_refl. apply orb_true_r. }
  pose proof (update_note_run w1 id upd _ _ Hauth' Hc Hgate) as Hu.
  pose proof (delete_note_run w1 id _ _ Hauth' Hc Hgate) as Hd.
  cbv zeta in Hu. rewrite Hsync' in Hu, Hd.
  eexists. split; [| split; [rewrite Hu; reflexivity |]].
  - destruct (List.find (fun l => String.eqb (label_name l) "keep-mcp")
                (account_labels w)) as [l |] eqn:Hfind.
    + apply List.find_some in Hfind as [_ Hname].
      apply String.eqb_eq in Hname. exact Hname.
    + reflexivity.
  - rewrite (status_serve _ _ _ _ Hu), (status_serve _ _ _ _ Hd).
    split; reflexivity.
Qed.

Lemma created_note_is_modifiable_witness :
  status (fst (RestApi.serve
                 (RestApi.update_note "gen.0"
                    (RestApi.mkNoteUpdateRequest None (Some "later")))
                 (snd (RestApi.create_note
                         (RestApi.mkNoteCreateRequest (Some "todo") None)
                         empty_world))))
    = 200.
Proof.
  destruct (created_note_is_modifiable empty_world
              (RestApi.mkNoteCreateRequest (Some "todo") None)
              (RestApi.mkNoteUpdateRequest None (Some "later"))
              eq_refl eq_refl)
    as (label & _ & _ & Hu & _).
  - intros n Hn. cbn in Hn. apply elem_of_nil in Hn. destruct Hn.
  - exact Hu.
Defined.

(** X11: what update_note answered is what get_note answers next.  For a
    cached note the gate admits, with the session established and the
    sync succeeding, get_note of the identifier in the world the update
    left returns the record the update returned. *)
Theorem update_then_get
  (w : World) (id : string) (upd : RestApi.NoteUpdateRequest)
  (r : ref) (n : Note) :
  auth_error w = None ->
  sync_error w = None ->
  cached w id r n ->
  KeepApi.can_modify (UNSAFE_MODE w) n = true ->
  fst (RestApi.get_note id (snd (RestApi.update_note id upd w)))
    = fst (RestApi.update_note id upd w).
Proof.
  intros Hauth Hsync Hc Hgate.
  pose proof (update_note_run w id upd r n Hauth Hc Hgate) as Hu.
  cbv zeta in Hu. rewrite Hsync in Hu. rewrite Hu. cbn [fst snd].
  match goal with
  | |- fst (RestApi.get_note id ?W) = Return (KeepApi.serialize ?m) =>
      assert (Hc' : cached W id r m)
        by (apply (cached_after_insert w W id r n m Hc);
            [exact (cached_note_id _ _ _ _ Hc) | reflexivity]);
      rewrite (get_note_run W id r m Hauth Hc')
  end.
  reflexivity.
Qed.

Lemma update_then_get_witness :
  fst (RestApi.get_note "a1"
         (snd (RestApi.update_note "a1"
                 (RestApi.mkNoteUpdateRequest None (Some "eggs"))
                 sample_world)))
    = fst (RestApi.update_note "a1"
             (RestApi.mkNoteUpdateRequest None (Some "eggs")) sample_world).
Proof.
  apply (update_then_get sample_world "a1"
           (RestApi.mkNoteUpdateRequest None (Some "eggs")) 0 owned_note);
    reflexivity.
Defined.

(** X12: update_note is idempotent.  For a cached note the gate admits,
    with the session established and the sync succeeding, sending the same
    update a second time returns the same record and leaves the cache and
    the remote account as the first update left them. *)
Theorem update_note_idempotent
  (w : World) (id : string) (upd : RestApi.NoteUpdateRequest)
  (r : ref) (n : Note) :
  auth_error w = None ->
  sync_error w = None ->
  cached w id r n ->
  KeepApi.can_modify (UNSAFE_MODE w) n = true ->
  let w1 := snd (RestApi.update_note id upd w) in
  let w2 := snd (RestApi.update_note id upd w1) in
  fst (RestApi.update_note id upd w1) = fst (RestApi.update_note id upd w) /\
  nodes w2 = nodes w1 /\
  server_nodes w2 = server_nodes w1.
Proof.
  intros Hauth Hsync Hc Hgate w1 w2. subst w2 w1.
  pose proof (cached_lookup _ _ _ _ Hc) as Hn.
  pose proof (update_note_run w id upd r n Hauth Hc Hgate) as Hu.
  cbv zeta in Hu. rewrite Hsync in Hu. rewrite Hu. cbn [fst snd].
  match goal with
  | |- fst (RestApi.update_note id upd ?W) = Return (KeepApi.serialize ?m) /\ _ =>
      assert (Hc' : cached W id r m)
        by (apply (cached_after_insert w W id r n m Hc);
            [exact (cached_note_id _ _ _ _ Hc) | reflexivity]);
      pose proof (update_note_run W id upd r m Hauth Hc' Hgate) as Hu'
  end.
  cbv zeta in Hu'. cbn [sync_error called push_to_server set_nodes] in Hu'.
  rewrite Hsync in Hu'. rewrite Hu'. cbn [fst snd].
  cbn [nodes server_nodes called push_to_server set_nodes
       note_id title text pinned color archived trashed deleted labels].
  rewrite list_insert_insert_eq.
  destruct upd as [[t |] [x |]]; cbn; repeat split; reflexivity.
Qed.

Lemma update_note_idempotent_witness :
  fst (RestApi.update_note "a1"
         (RestApi.mkNoteUpdateRequest (Some "list") None)
         (snd (RestApi.update_note "a1"
                 (RestApi.mkNoteUpdateRequest (Some "list") None)
                 sample_world)))
    = fst (RestApi.update_note "a1"
             (RestApi.mkNoteUpdateRequest (Some "list") None) sample_world).
Proof.
  apply (update_note_idempotent sample_world "a1"
           (RestApi.mkNoteUpdateRequest (Some "list") None) 0 owned_note);
    reflexivity.
Defined.

(** X13: with the session established, every health route of both
    surfaces answers 200 with status "healthy" and google_keep_connected
    true, the REST routes with the timestamp and the version besides; the
    only call made is get_client. *)
Theorem health_routes_healthy (w : World) (p : HealthPath) :
  auth_error w = None ->
  RestApi.GET_health p w
    = (JSONResponse
         (JObj [ ("status", JStr "healthy");
                 ("timestamp", JStr (clock w));
                 ("service", JStr "google-keep-rest-api");
                 ("google_keep_connected", JBool true);
                 ("version", JStr "1.0.0") ])
         200,
       called [call_get_client] w) /\
  StandaloneHttp.GET_health p w
    = (Return
         (JSONResponse
            (JObj [ ("status", JStr "healthy");
                    ("service", JStr "google-keep-mcp");
                    ("google_keep_connected", JBool true) ])
            200),
       called [call_get_client] w).
Proof.
  intros Hauth.
  split; destruct p;
    unfold RestApi.GET_health, RestApi.serve, RestApi.health_check,
      StandaloneHttp.GET_health, StandaloneHttp.api_health_check,
      StandaloneHttp.health_check;
    run; rewrite Hauth; reflexivity.
Qed.

Lemma health_routes_healthy_witness :
  StandaloneHttp.GET_health path_health sample_world
    = (Return
         (JSONResponse
            (JObj [ ("status", JStr "healthy");
                    ("service", JStr "google-keep-mcp");
                    ("google_keep_connected", JBool true) ])
            200),
       called [call_get_client] sample_world).
Proof.
  apply (health_routes_healthy sample_world path_health). reflexivity.
Defined.

(** X14: in every world a health route answers and does not raise, makes
    no call but get_client, and reports in google_keep_connected whether
    the session provider succeeded.  On the tool-invocation surface the
    status code says the same: 200 exactly when the provider succeeded,
    503 exactly when it failed.  On the REST surface the status code is
    200 either way.  The two paths of a surface answer alike. *)
Theorem health_routes_report_session (w : World) (p : HealthPath) :
  (exists resp,
     StandaloneHttp.GET_health p w = (Return resp, called [call_get_client] w) /\
     json_field "google_keep_connected" (content resp)
       = Some (JBool (session_available w)) /\
     (status resp = 200 <-> auth_error w = None) /\
     (status resp = 503 <-> auth_error w <> None)) /\
  (exists resp,
     RestApi.GET_health p w = (resp, called [call_get_client] w) /\
     json_field "google_keep_connected" (content resp)
       = Some (JBool (session_available w)) /\
     status resp = 200) /\
  StandaloneHttp.GET_health path_health w
    = StandaloneHttp.GET_health path_api_health w /\
  RestApi.GET_health path_health w = RestApi.GET_health path_api_health w.
Proof.
  split; [| split; [| split; reflexivity]].
  - destruct p;
      unfold StandaloneHttp.GET_health, StandaloneHttp.api_health_check,
        StandaloneHttp.health_check, session_available;
      run; destruct (auth_error w) as [m |]; eexists;
      (split; [reflexivity |]); (split; [reflexivity |]); cbn;
      split; split; intros H; congruence.
  - destruct p;
      unfold RestApi.GET_health, RestApi.serve, RestApi.health_check,
        session_available;
      run; destruct (auth_error w) as [m |]; eexists;
      (split; [reflexivity |]); split; reflexivity.
Qed.

(** * Properties of the start-up functions *)

Lemma getenv_other (key default k v : string) (p : Process) :
  k <> key ->
  getenv key default (with_environ (<[k := v]> (environ p)) p)
    = getenv key default p.
Proof.
  intros Hne. unfold getenv, with_environ. cbn [environ].
  rewrite lookup_insert_ne by exact Hne. reflexivity.
Qed.

(** X15: the two run_http_server functions read MCP_HOST and MCP_PORT and,
    for a printed line only, MCP_PATH.  Setting any other environment
    variable changes neither how they end, nor the settings, nor the host
    and port the server is launched on; setting MCP_PATH changes nothing
    of that either, it changes no output at all in http_server.py and it
    never reaches the settings. *)
Theorem run_http_server_environment
  (int : string -> option Z) (p : Process) (k v : string) :
  k <> "MCP_HOST" ->
  k <> "MCP_PORT" ->
  let p' := with_environ (<[k := v]> (environ p)) p in
  let plain := HttpServer.run_http_server int in
  let enhanced := StandaloneHttp.run_http_server int in
  (fst (plain p') = fst (plain p) /\
   settings_host (snd (plain p')) = settings_host (snd (plain p)) /\
   settings_port (snd (plain p')) = settings_port (snd (plain p)) /\
   launched (snd (plain p')) = launched (snd (plain p)) /\
   stdout (snd (plain p')) = stdout (snd (plain p))) /\
  (fst (enhanced p') = fst (enhanced p) /\
   settings_host (snd (enhanced p')) = settings_host (snd (enhanced p)) /\
   settings_port (snd (enhanced p')) = settings_port (snd (enhanced p)) /\
   launched (snd (enhanced p')) = launched (snd (enhanced p)) /\
   (k <> "MCP_PATH" ->
    stdout (snd (enhanced p')) = stdout (snd (enhanced p)))).
Proof.
  intros Hhost Hport p' plain enhanced. subst p' plain enhanced.
  unfold HttpServer.run_http_server, StandaloneHttp.run_http_server.
  rewrite !(getenv_other "MCP_HOST") by exact Hhost.
  rewrite !(getenv_other "MCP_PORT") by exact Hport.
  destruct (int (getenv "MCP_PORT" "8000" p)) as [port |].
  - cbn [server_end launch set_settings print with_environ].
    split.
    + destruct (server_end p); cbn; repeat split; reflexivity.
    + destruct (server_end p); cbn; repeat split; try reflexivity;
        intros Hpath; rewrite (getenv_other "MCP_PATH") by exact Hpath;
        reflexivity.
  - cbn. repeat split; reflexivity.
Qed.

Lemma run_http_server_environment_witness :
  launched (snd (StandaloneHttp.run_http_server int_of_digits
                   (with_environ (<["MCP_PATH" := "/tools"]>
                                    (environ sample_process))
                      sample_process)))
    = launched (snd (StandaloneHttp.run_http_server int_of_digits
                       sample_process)).
Proof.
  apply (run_http_server_environment int_of_digits sample_process
           "MCP_PATH" "/tools"); discriminate.
Defined.

(** X16: the REST start-up block reads REST_API_HOST and REST_API_PORT and
    nothing else of the environment: setting any other variable, MCP_HOST
    and MCP_PORT included, changes neither how it ends, nor what it
    prints, nor the host and port the API is served on. *)
Theorem main_environment
  (int : string -> option Z) (p : Process) (k v : string) :
  k <> "REST_API_HOST" ->
  k <> "REST_API_PORT" ->
  let p' := with_environ (<[k := v]> (environ p)) p in
  fst (RestApi.main int p') = fst (RestApi.main int p) /\
  launched (snd (RestApi.main int p')) = launched (snd (RestApi.main int p)) /\
  stdout (snd (RestApi.main int p')) = stdout (snd (RestApi.main int p)) /\
  settings_host (snd (RestApi.main int p')) = settings_host (snd (RestApi.main int p)) /\
  settings_port (snd (RestApi.main int p')) = settings_port (snd (RestApi.main int p)).
Proof.
  intros Hhost Hport p'. subst p'. unfold RestApi.main.
  rewrite !(getenv_other "REST_API_HOST") by exact Hhost.
  rewrite !(getenv_other "REST_API_PORT") by exact Hport.
  destruct (int (getenv "REST_API_PORT" "8001" p)) as [port |].
  - cbn [server_end launch print with_environ].
    destruct (server_end p); cbn; repeat split; reflexivity.
  - cbn. repeat split; reflexivity.
Qed.

Lemma main_environment_witness :
  launched (snd (RestApi.main int_of_digits
                   (with_environ (<["MCP_PORT" := "9999"]>
                                    (environ sample_process))
                      sample_process)))
    = launched (snd (RestApi.main int_of_digits sample_process)).
Proof.
  apply (main_environment int_of_digits sample_process "MCP_PORT" "9999");
    discriminate.
Defined.

(** X17: how the two run_http_server functions end.  When int() refuses
    the port literal the ValueError leaves the function as it is, raised
    before the try block: nothing was printed, the settings are untouched
    and no server was launched.  When the port is read, the settings take
    the host and the port, the server is launched on them, an exception
    of the server is printed and turned into exit status 1, and a
    KeyboardInterrupt is answered with the shutdown line and an ordinary
    return. *)
Theorem run_http_server_endings (int : string -> option Z) (p : Process) :
  let literal := getenv "MCP_PORT" "8000" p in
  (int literal = None ->
   HttpServer.run_http_server int p = (raises_ValueError literal, p) /\
   StandaloneHttp.run_http_server int p = (raises_ValueError literal, p)) /\
  (forall port,
     int literal = Some port ->
     supervises (HttpServer.run_http_server int) p port /\
     supervises (StandaloneHttp.run_http_server int) p port).
Proof.
  cbv zeta. split.
  - intros Hint.
    unfold HttpServer.run_http_server, StandaloneHttp.run_http_server.
    rewrite Hint. split; reflexivity.
  - intros port Hint.
    unfold supervises, HttpServer.run_http_server,
      StandaloneHttp.run_http_server.
    rewrite Hint. cbn [server_end launch set_settings print].
    split; destruct (server_end p) as [| | m] eqn:Hend; cbn [fst snd];
      cbn [settings_host settings_port launched stdout print launch
           set_settings];
      (split; [reflexivity |]); (split; [reflexivity |]);
      (split; [reflexivity |]);
      (split; [split; [discriminate || (intros _; eexists; reflexivity)
                      | intros [m' Hm']; first [discriminate | reflexivity]] |]);
      (split; [split; [first [discriminate | intros _; auto]
                      | intros [H | H]; first [discriminate | reflexivity]] |]);
      (split; [intros m' Hm'; first [discriminate |
                 inversion Hm'; subst; rewrite last_snoc; reflexivity]
              | intros H; first [discriminate | rewrite last_snoc; reflexivity]]).
Qed.

Lemma run_http_server_endings_witness :
  HttpServer.run_http_server int_of_digits misconfigured_process
    = (raises_ValueError "http", misconfigured_process) /\
  supervises (StandaloneHttp.run_http_server int_of_digits) sample_process
    9000.
Proof.
  split.
  - apply (run_http_server_endings int_of_digits misconfigured_process).
    reflexivity.
  - apply (run_http_server_endings int_of_digits sample_process).
    reflexivity.
Defined.

(** X18: http_server.py and standalone_http.py start the server alike.
    For every environment and every way the server ends, the two
    run_http_server functions end the same way, leave the same settings
    and launch on the same host and port; when the port is read the
    enhanced one has printed exactly one line more. *)
Theorem run_http_server_variants_agree
  (int : string -> option Z) (p : Process) :
  let plain := HttpServer.run_http_server int p in
  let enhanced := StandaloneHttp.run_http_server int p in
  fst enhanced = fst plain /\
  settings_host (snd enhanced) = settings_host (snd plain) /\
  settings_port (snd enhanced) = settings_port (snd plain) /\
  launched (snd enhanced) = launched (snd plain) /\
  length (stdout (snd enhanced))
    = match int (getenv "MCP_PORT" "8000" p) with
      | Some _ => S (length (stdout (snd plain)))
      | None => length (stdout (snd plain))
      end.
Proof.
  cbv zeta.
  unfold HttpServer.run_http_server, StandaloneHttp.run_http_server.
  destruct (int (getenv "MCP_PORT" "8000" p)) as [port |].
  - cbn [server_end launch set_settings print].
    destruct (server_end p); cbn [fst snd settings_host settings_port
      launched stdout print launch set_settings];
      repeat split; rewrite ?length_app; cbn [length]; lia.
  - repeat split; reflexivity.
Qed.

(** X19: the REST start-up block catches nothing.  When int() refuses the
    port literal the ValueError leaves before anything is printed or
    served; when the port is read the API is served on the host of the
    environment and that port, and a KeyboardInterrupt or an exception of
    the server leaves the block as it is, never as exit status 1. *)
Theorem main_endings (int : string -> option Z) (p : Process) :
  let literal := getenv "REST_API_PORT" "8001" p in
  (int literal = None ->
   RestApi.main int p = (raises_ValueError literal, p)) /\
  (forall port,
     int literal = Some port ->
     launched (snd (RestApi.main int p))
       = Some (getenv "REST_API_HOST" "0.0.0.0" p, port) /\
     fst (RestApi.main int p)
       = match server_end p with
         | server_returns => returns
         | server_KeyboardInterrupt => raises_KeyboardInterrupt
         | server_Exception m => raises_Exception m
         end /\
     settings_host (snd (RestApi.main int p)) = settings_host p /\
     settings_port (snd (RestApi.main int p)) = settings_port p) /\
  (forall code, fst (RestApi.main int p) <> raises_SystemExit code).
Proof.
  cbv zeta. unfold RestApi.main. split; [| split].
  - intros Hint. rewrite Hint. reflexivity.
  - intros port Hint. rewrite Hint. cbn [server_end launch print].
    destruct (server_end p); cbn; repeat split; reflexivity.
  - intros code. destruct (int (getenv "REST_API_PORT" "8001" p)).
    + cbn [server_end launch print]. destruct (server_end p); discriminate.
    + discriminate.
Qed.

Lemma main_endings_witness :
  RestApi.main int_of_digits misconfigured_process
    = (raises_ValueError "rest", misconfigured_process) /\
  fst (RestApi.main int_of_digits sample_process)
    = raises_Exception "address in use".
Proof.
  split.
  - apply (main_endings int_of_digits misconfigured_process). reflexivity.
  - destruct (main_endings int_of_digits sample_process) as (_ & Hrun & _).
    destruct (Hrun 8001%Z eq_refl) as (_ & Hend & _). exact Hend.
Defined.
